(** * Connection registry and broadcast router (SocketService.ts)

    A shallow embedding of [SocketService] (services/SocketService.ts)
    together with the part of [AnalyticsService] it calls
    ([trackEvent], [updateRealTimeMetrics], [getRealTimeMetrics]).

    - [Map<string, SocketUser>] and [Map<string, Set<string>>] are
      [gmap string _] and [gset string].
    - The socket.io room table (the adapter behind [socket.join],
      [socket.leave] and [io.to(room)]) is a third [gmap].
    - Every handler is a computation in a small state-and-exception monad
      over [World]; a handler runs to completion (an [await] is a
      sequencing point, interleavings of handlers are not modelled).
    - Collaborators whose code is outside the service (token verifier,
      Redis client, clock formatting) are fields of [Env]; a Redis command
      whose promise rejects is [None]. *)

From Stdlib Require Import ZArith Ascii String.
From stdpp Require Import gmap strings list fin_maps.

Local Open Scope string_scope.
Local Open Scope Z_scope.

(** ** JavaScript string primitives used by the service *)

Module Js.

(** [s.startsWith(p)] *)
Definition startsWith (s p : string) : bool := String.prefix p s.

(** [s.split(sep)] for a one-character separator: never empty,
    ["a:b:c"] gives [["a"; "b"; "c"]], [""] gives [[""]]. *)
Fixpoint split (sep : ascii) (s : string) : list string :=
  match s with
  | EmptyString => [EmptyString]
  | String c s' =>
      if Ascii.eqb c sep then EmptyString :: split sep s'
      else match split sep s' with
           | [] => [String c EmptyString]
           | h :: t => String c h :: t
           end
  end.

(** Truthiness of an optional string: [undefined] and [""] are falsy. *)
Definition truthy (s : option string) : bool :=
  match s with
  | Some (String _ _) => true
  | _ => false
  end.

(** [a === b] on values that are a string or [undefined]. *)
Definition strict_eq (a b : option string) : bool := bool_decide (a = b).

(** [a || b] on optional strings. *)
Definition or_else (a b : option string) : option string :=
  if truthy a then a else b.

(** Does the string contain the character? *)
Fixpoint contains (c : ascii) (s : string) : bool :=
  match s with
  | EmptyString => false
  | String d s' => Ascii.eqb d c || contains c s'
  end.

End Js.

(** ** Data model *)

(** What the token verifier returns for a valid token. *)
Record User := mkUser {
  user_id : string;
  user_name : string;
  user_role : string
}.

Record Location := mkLocation { country : string; city : string }.

Record Metadata := mkMetadata {
  userAgent : string;
  ipAddress : string;
  location : option Location
}.

(** [interface SocketUser] *)
Record SocketUser := mkSocketUser {
  id : string;
  socketId : string;
  userId : option string;
  role : option string;
  isAuthenticated : bool;
  connectedAt : Z;
  lastActivity : Z;
  metadata : Metadata
}.

(** The fields of [socket.handshake] the service reads. *)
Record Handshake := mkHandshake {
  auth_token : option string;
  header_authorization : option string;
  header_user_agent : option string;
  address : string
}.

(** A socket.io [Socket] with the three fields the service adds to it. *)
Record Socket := mkSocket {
  sk_id : string;
  sk_handshake : Handshake;
  sk_userId : option string;
  sk_userRole : option string;
  sk_isAuthenticated : option bool
}.

(** A JSON-like value carried in event payloads. *)
Inductive JsVal :=
| JUndefined
| JStr (s : string)
| JNum (n : Z)
| JBool (b : bool).

(** [interface AnalyticsEvent] (the optional [ip] and [userAgent] are never
    set by the socket service). *)
Record AnalyticsEvent := mkEvent {
  ev_type : string;
  ev_sessionId : string;
  ev_userId : option string;
  ev_data : list (string * JsVal);
  ev_timestamp : Z
}.

(** [event.data.key] *)
Fixpoint data_get (key : string) (d : list (string * JsVal)) : JsVal :=
  match d with
  | [] => JUndefined
  | (k, v) :: d' => if String.eqb k key then v else data_get key d'
  end.

(** Commands sent to the Redis client. *)
Inductive RedisCmd :=
| Setex (key : string) (ttl : Z) (value : SocketUser)
| Del (key : string)
| Lpush (key : string) (value : AnalyticsEvent)
| Expire (key : string) (ttl : Z)
| Incr (key : string)
| Zincrby (key : string) (by_ : Z) (member : JsVal)
| Sadd (key : string) (member : string)
| Get (key : string)
| Scard (key : string).

Inductive Reply :=
| RNull
| RStr (s : string)
| RInt (n : Z).

(** How a call ends: it returns a value, or it throws (for an [async]
    function: its promise rejects). *)
Inductive Completion (A : Type) :=
| Returned (a : A)
| Thrown.
Arguments Returned {A} a.
Arguments Thrown {A}.

(** The collaborators of the service. *)
Record Env := mkEnv {
  (** [AuthService.verifyToken]: a user, [null], or an exception *)
  verifyToken : string -> Completion (option User);
  (** the Redis client: [None] when the command fails *)
  redis : RedisCmd -> option Reply;
  (** [date.toISOString().split('T')[0]] *)
  isoDate : Z -> string;
  (** [parseInt] *)
  parseInt : string -> Z
}.

(** ** Outbound events *)

Inductive Target :=
| ToSocket (sid : string)      (* socket.emit *)
| ToRoom (room : string)       (* io.to(room).emit *)
| ToAll.                       (* io.emit *)

Record DashboardData := mkDashboard {
  activeConnections : nat;
  authenticatedUsers : nat;
  adminConnections : nat;
  dash_timestamp : Z
}.

Record Metrics := mkMetrics {
  todayPageViews : Z;
  todayUniqueVisitors : Reply;
  todayProjectViews : Z;
  activeUsers : Reply
}.

Inductive Payload :=
| connection_established (socketId : string) (serverTime : Z) (connectedUsers : nat)
| authentication_success (uid name urole : string)
| authentication_error (message : string)
| room_joined (room : string)
| room_join_error (message : string)
| room_left (room : string)
| subscription_error (message : string)
| dashboard_data (d : DashboardData)
| dashboard_update (d : DashboardData)
| real_time_analytics (m : Metrics)
| active_users_count (n : nat).

Inductive LogEntry :=
| LogInfo (msg : string)
| LogError (msg : string).

(** ** State and the handler monad *)

Record World := mkWorld {
  connectedUsers : gmap string SocketUser;
  userSessions : gmap string (gset string);
  rooms : gmap string (gset string);
  outbox : list (Target * Payload);
  log : list LogEntry
}.

Definition M (A : Type) : Type := World -> World * Completion A.

#[global] Instance M_ret : MRet M := fun A a w => (w, Returned a).

#[global] Instance M_bind : MBind M := fun A B f m w =>
  match m w with
  | (w', Returned a) => f a w'
  | (w', Thrown) => (w', Thrown)
  end.

Definition throw {A} : M A := fun w => (w, Thrown).

(** [try { body } catch (error) { handler }] *)
Definition try_catch {A} (body handler : M A) : M A := fun w =>
  match body w with
  | (w', Returned a) => (w', Returned a)
  | (w', Thrown) => handler w'
  end.

(** [await] of a collaborator call *)
Definition await {A} (c : Completion A) : M A := fun w => (w, c).

Definition get_world : M World := fun w => (w, Returned w).

Definition modify (f : World -> World) : M unit := fun w => (f w, Returned tt).

(** [if (c) { body }] *)
Definition when (c : bool) (body : M unit) : M unit :=
  if c then body else mret tt.

(** Field updates of [World]. *)
Definition set_connectedUsers (f : gmap string SocketUser -> gmap string SocketUser)
    (w : World) : World :=
  mkWorld (f (connectedUsers w)) (userSessions w) (rooms w) (outbox w) (log w).

Definition set_userSessions (f : gmap string (gset string) -> gmap string (gset string))
    (w : World) : World :=
  mkWorld (connectedUsers w) (f (userSessions w)) (rooms w) (outbox w) (log w).

Definition set_rooms (f : gmap string (gset string) -> gmap string (gset string))
    (w : World) : World :=
  mkWorld (connectedUsers w) (userSessions w) (f (rooms w)) (outbox w) (log w).

(** [socket.emit], [io.to(room).emit], [io.emit] *)
Definition emit (t : Target) (p : Payload) : M unit :=
  modify (fun w =>
    mkWorld (connectedUsers w) (userSessions w) (rooms w) (outbox w ++ [(t, p)]) (log w)).

Definition logger (e : LogEntry) : M unit :=
  modify (fun w =>
    mkWorld (connectedUsers w) (userSessions w) (rooms w) (outbox w) (log w ++ [e])).

(** [await this.redis.getClient().cmd(...)] *)
Definition redis_call (env : Env) (c : RedisCmd) : M Reply :=
  await (match redis env c with Some r => Returned r | None => Thrown end).

(** A promise that is created and not awaited: the call runs, its outcome
    is dropped. *)
Definition fire_and_forget {A} (m : M A) : M unit :=
  fun w => (fst (m w), Returned tt).

(** The empty registry. *)
Definition initial : World := mkWorld ∅ ∅ ∅ [] [].


(** ** AnalyticsService (the analytics sink) *)

Module AnalyticsService.

Definition updateRealTimeMetrics (env : Env) (now : Z) (event : AnalyticsEvent)
  : M unit :=
  let today := isoDate env now in
  (if String.eqb (ev_type event) "page_view" then
     redis_call env (Incr ("analytics:page_views:" +:+ today));;
     redis_call env (Zincrby ("analytics:top_pages:" +:+ today) 1
                       (data_get "page" (ev_data event)));;
     mret tt
   else if String.eqb (ev_type event) "project_view" then
     redis_call env (Incr ("analytics:project_views:" +:+ today));;
     redis_call env (Zincrby ("analytics:top_projects:" +:+ today) 1
                       (data_get "projectId" (ev_data event)));;
     mret tt
   else if String.eqb (ev_type event) "contact_form" then
     redis_call env (Incr ("analytics:contact_forms:" +:+ today));;
     mret tt
   else if String.eqb (ev_type event) "download" then
     redis_call env (Incr ("analytics:downloads:" +:+ today));;
     mret tt
   else mret tt);;
  (* Track unique visitors *)
  when (Js.truthy (Some (ev_sessionId event)))
    (redis_call env (Sadd ("analytics:unique_visitors:" +:+ today)
                       (ev_sessionId event));;
     mret tt).

Definition trackEvent (env : Env) (now : Z) (event : AnalyticsEvent) : M unit :=
  try_catch
    (let eventKey := "analytics:events:" +:+ isoDate env now in
     redis_call env (Lpush eventKey event);;
     redis_call env (Expire eventKey (86400 * 30));;
     (* Update real-time metrics *)
     updateRealTimeMetrics env now event)
    (logger (LogError "Failed to track analytics event:")).

(** [parseInt(reply || '0')] *)
Definition parse_or_zero (env : Env) (r : Reply) : Z :=
  match r with
  | RStr (String c s) => parseInt env (String c s)
  | RInt n => if Z.eqb n 0 then parseInt env "0" else n
  | _ => parseInt env "0"
  end.

(** The four reads of [Promise.all]: one that fails rejects the whole. *)
Definition getRealTimeMetrics (env : Env) (now : Z) : M Metrics :=
  let today := isoDate env now in
  todayPageViews ← redis_call env (Get ("analytics:page_views:" +:+ today));
  todayUniqueVisitors ← redis_call env (Scard ("analytics:unique_visitors:" +:+ today));
  todayProjectViews ← redis_call env (Get ("analytics:project_views:" +:+ today));
  activeUsers ← redis_call env (Scard "analytics:active_users");
  mret (mkMetrics (parse_or_zero env todayPageViews) todayUniqueVisitors
          (parse_or_zero env todayProjectViews) activeUsers).

End AnalyticsService.

(** ** socket.io room table *)

(** [socket.join(room)]: the adapter adds the id to the room's set and
    creates the room when it is new. *)
Definition socket_join (sid room : string) : M unit :=
  modify (set_rooms (fun r => <[room := {[sid]} ∪ default ∅ (r !! room)]> r)).

(** [socket.leave(room)]: the adapter removes the id and drops a room that
    became empty. *)
Definition leave_in (sid room : string) (r : gmap string (gset string))
  : gmap string (gset string) :=
  match r !! room with
  | Some s =>
      if decide (s ∖ {[sid]} = ∅) then delete room r
      else <[room := s ∖ {[sid]}]> r
  | None => r
  end.

Definition socket_leave (sid room : string) : M unit :=
  modify (set_rooms (leave_in sid room)).

(** socket.io leaves every room of a closing socket before it fires the
    ['disconnect'] event. *)
Definition socket_leaveAll (sid : string) : M unit :=
  modify (set_rooms (fun r =>
    filter (fun kv => kv.2 ≠ ∅) ((fun s : gset string => s ∖ {[sid]}) <$> r))).

(** Is the connection a member of the room? *)
Definition member (w : World) (sid room : string) : Prop :=
  sid ∈ default ∅ (rooms w !! room).

(** ** SocketService *)

Module SocketService.
Import AnalyticsService.

Definition getLocationFromIP (ipAddress : string) : M (option Location) :=
  mret (Some (mkLocation "Unknown" "Unknown")).

Definition getPublicUserCount (w : World) : nat := size (connectedUsers w).

Definition getDashboardData (now : Z) : M DashboardData :=
  w ← get_world;
  mret (mkDashboard
          (size (connectedUsers w))
          (length (filter (fun user => isAuthenticated user = true)
                     (map_to_list (connectedUsers w)).*2))
          (length (filter (fun user => role user = Some "admin")
                     (map_to_list (connectedUsers w)).*2))
          now).

Definition authenticationMiddleware (env : Env) (socket : Socket) : M Socket :=
  try_catch
    (let token := Js.or_else (auth_token (sk_handshake socket))
                    (header_authorization (sk_handshake socket)) in
     match token with
     | Some (String c t) =>
         user ← await (verifyToken env (String c t));
         match user with
         | Some u =>
             mret (mkSocket (sk_id socket) (sk_handshake socket)
                     (Some (user_id u)) (Some (user_role u)) (Some true))
         | None => mret socket
         end
     | _ => mret socket
     end)
    (logger (LogError "Socket authentication error:");; mret socket).

Definition handleConnection (env : Env) (now : Z) (socket : Socket) : M unit :=
  let userAgent := default "" (Js.or_else (header_user_agent (sk_handshake socket))
                                 (Some "")) in
  let ipAddress := address (sk_handshake socket) in
  loc ← getLocationFromIP ipAddress;
  let socketUser :=
    mkSocketUser (sk_id socket) (sk_id socket) (sk_userId socket) (sk_userRole socket)
      (default false (sk_isAuthenticated socket)) now now
      (mkMetadata userAgent ipAddress loc) in
  modify (set_connectedUsers (insert (sk_id socket) socketUser));;
  (* Track user sessions *)
  match userId socketUser with
  | Some (String c u) =>
      let uid := String c u in
      modify (set_userSessions (fun us =>
        if decide (is_Some (us !! uid)) then us else <[uid := ∅]> us));;
      modify (set_userSessions (alter (fun s => {[sk_id socket]} ∪ s) uid));;
      (* Join user-specific room *)
      socket_join (sk_id socket) ("user:" +:+ uid);;
      when (Js.strict_eq (role socketUser) (Some "admin"))
        (socket_join (sk_id socket) "admins")
  | _ => mret tt
  end;;
  (* Store connection in Redis *)
  redis_call env (Setex ("socket:" +:+ sk_id socket) 3600 socketUser);;
  (* Analytics *)
  trackEvent env now
    (mkEvent "socket_connection" (sk_id socket) (userId socketUser)
       [("userAgent", JStr userAgent); ("ipAddress", JStr ipAddress);
        ("isAuthenticated", JBool (isAuthenticated socketUser))]
       now);;
  (* Send welcome message *)
  w ← get_world;
  emit (ToSocket (sk_id socket))
    (connection_established (sk_id socket) now (getPublicUserCount w));;
  logger (LogInfo ("Socket connected: " +:+ sk_id socket)).

Definition handleAuthentication (env : Env) (socket : Socket) (token : string)
  : M Socket :=
  try_catch
    (user ← await (verifyToken env token);
     match user with
     | Some u =>
         let socket' := mkSocket (sk_id socket) (sk_handshake socket)
                          (Some (user_id u)) (Some (user_role u)) (Some true) in
         (* Update stored user data *)
         w ← get_world;
         match connectedUsers w !! sk_id socket with
         | Some socketUser =>
             modify (set_connectedUsers (insert (sk_id socket)
               (mkSocketUser (id socketUser) (socketId socketUser)
                  (Some (user_id u)) (Some (user_role u)) true
                  (connectedAt socketUser) (lastActivity socketUser)
                  (metadata socketUser))))
         | None => mret tt
         end;;
         (* Join appropriate rooms *)
         socket_join (sk_id socket) ("user:" +:+ user_id u);;
         when (bool_decide (user_role u = "admin"))
           (socket_join (sk_id socket) "admins");;
         emit (ToSocket (sk_id socket))
           (authentication_success (user_id u) (user_name u) (user_role u));;
         logger (LogInfo ("Socket authenticated: " +:+ sk_id socket +:+ " - User: "
                            +:+ user_id u));;
         mret socket'
     | None =>
         emit (ToSocket (sk_id socket)) (authentication_error "Invalid token");;
         mret socket
     end)
    (logger (LogError "Socket authentication error:");;
     emit (ToSocket (sk_id socket)) (authentication_error "Authentication failed");;
     mret socket).

Definition canJoinRoom (socket : Socket) (room : string) : bool :=
  (* Admin rooms *)
  if Js.startsWith room "admin_" then
    Js.strict_eq (sk_userRole socket) (Some "admin")
  (* User-specific rooms *)
  else if Js.startsWith room "user:" then
    let userId := Js.split ":" room !! 1%nat in
    Js.strict_eq (sk_userId socket) userId
    || Js.strict_eq (sk_userRole socket) (Some "admin")
  (* Public rooms *)
  else if Js.startsWith room "public_" then true
  else false.

Definition handleJoinRoom (socket : Socket) (room : string) : M unit :=
  (* Validate room access *)
  if canJoinRoom socket room then
    socket_join (sk_id socket) room;;
    emit (ToSocket (sk_id socket)) (room_joined room);;
    logger (LogInfo ("Socket " +:+ sk_id socket +:+ " joined room: " +:+ room))
  else
    emit (ToSocket (sk_id socket)) (room_join_error "Access denied to room").

Definition handleLeaveRoom (socket : Socket) (room : string) : M unit :=
  socket_leave (sk_id socket) room;;
  emit (ToSocket (sk_id socket)) (room_left room).

Definition handleUserActivity (env : Env) (now : Z) (socket : Socket)
    (data : list (string * JsVal)) : M unit :=
  w ← get_world;
  match connectedUsers w !! sk_id socket with
  | Some socketUser =>
      modify (set_connectedUsers (insert (sk_id socket)
        (mkSocketUser (id socketUser) (socketId socketUser) (userId socketUser)
           (role socketUser) (isAuthenticated socketUser) (connectedAt socketUser)
           now (metadata socketUser))))
  | None => mret tt
  end;;
  (* Track activity for analytics *)
  fire_and_forget
    (trackEvent env now
       (mkEvent "user_activity" (sk_id socket) (sk_userId socket) data now)).

Definition handleDisconnection (env : Env) (now : Z) (socket : Socket) : M unit :=
  w ← get_world;
  match connectedUsers w !! sk_id socket with
  | Some socketUser =>
      (* Calculate session duration *)
      let sessionDuration := now - connectedAt socketUser in
      (* Remove from user sessions *)
      match userId socketUser with
      | Some (String c u) =>
          let uid := String c u in
          match userSessions w !! uid with
          | Some _ =>
              modify (set_userSessions (alter (fun s => s ∖ {[sk_id socket]}) uid));;
              w' ← get_world;
              when (bool_decide (size (default ∅ (userSessions w' !! uid)) = 0%nat))
                (modify (set_userSessions (delete uid)))
          | None => mret tt
          end
      | _ => mret tt
      end;;
      (* Analytics *)
      trackEvent env now
        (mkEvent "socket_disconnection" (sk_id socket) (userId socketUser)
           [("sessionDuration", JNum sessionDuration);
            ("isAuthenticated", JBool (isAuthenticated socketUser))]
           now);;
      modify (set_connectedUsers (delete (sk_id socket)))
  | None => mret tt
  end;;
  (* Remove from Redis *)
  redis_call env (Del ("socket:" +:+ sk_id socket));;
  logger (LogInfo ("Socket disconnected: " +:+ sk_id socket)).

Definition broadcastRealTimeData (env : Env) (now : Z) : M unit :=
  try_catch
    ((* Broadcast to admin dashboard *)
     dashboardData ← getDashboardData now;
     emit (ToRoom "admin_dashboard") (dashboard_update dashboardData);;
     (* Broadcast analytics to admins *)
     analytics ← getRealTimeMetrics env now;
     emit (ToRoom "admins") (real_time_analytics analytics);;
     (* Broadcast active user count to public *)
     w ← get_world;
     emit ToAll (active_users_count (getPublicUserCount w)))
    (logger (LogError "Error broadcasting real-time data:")).

(** [initialize]: [setInterval(() => this.broadcastRealTimeData(), 10000)],
    the period of the snapshot timer in milliseconds. *)
Definition broadcast_interval_ms : Z := 10000.

(** The ['disconnect'] event of a socket: socket.io has already taken the
    socket out of its rooms when the handler runs. *)
Definition disconnect (env : Env) (now : Z) (socket : Socket) : M unit :=
  socket_leaveAll (sk_id socket);;
  handleDisconnection env now socket.

Definition handleAdminDashboardSubscribe (now : Z) (socket : Socket) : M unit :=
  if negb (Js.strict_eq (sk_userRole socket) (Some "admin")) then
    emit (ToSocket (sk_id socket)) (subscription_error "Admin access required")
  else
    socket_join (sk_id socket) "admin_dashboard";;
    (* Send initial dashboard data *)
    dashboardData ← getDashboardData now;
    emit (ToSocket (sk_id socket)) (dashboard_data dashboardData);;
    logger (LogInfo ("Admin subscribed to dashboard: " +:+ sk_id socket)).

Definition handleRealTimeAnalytics (env : Env) (now : Z) (socket : Socket) : M unit :=
  if negb (Js.strict_eq (sk_userRole socket) (Some "admin")) then mret tt
  else
    analytics ← getRealTimeMetrics env now;
    emit (ToSocket (sk_id socket)) (real_time_analytics analytics).

(** [this.userSessions.get(userId)?.size || 0] *)
Definition getUserConnections (w : World) (userId : string) : nat :=
  match userSessions w !! userId with
  | Some s => size s
  | None => 0%nat
  end.

End SocketService.

(** ** Events outside [Payload], and the wiring of [initialize] *)

(** The events of [handleProjectView], [sendNotificationToUser] and
    [broadcastToAdmins]; a notification and the data of a custom event are
    opaque to the service. *)
Inductive Broadcast :=
| project_view_update (projectId slug : JsVal) (timestamp : Z) (userId : option string)
| notification (body : list (string * JsVal))
| custom_event (event : string) (data : list (string * JsVal)).

(** The registry together with the events of [Broadcast] it has sent. *)
Record Hub := mkHub {
  registry : World;
  broadcasts : list (Target * Broadcast)
}.

Definition H (A : Type) : Type := Hub -> Hub * Completion A.

#[global] Instance H_ret : MRet H := fun A a h => (h, Returned a).

#[global] Instance H_bind : MBind H := fun A B f m h =>
  match m h with
  | (h', Returned a) => f a h'
  | (h', Thrown) => (h', Thrown)
  end.

(** A computation on the registry, run inside the hub. *)
Definition lift {A} (m : M A) : H A := fun h =>
  (mkHub (m (registry h)).1 (broadcasts h), (m (registry h)).2).

(** [io.to(room).emit(event, data)] for an event of [Broadcast] *)
Definition broadcast (t : Target) (b : Broadcast) : H unit := fun h =>
  (mkHub (registry h) (broadcasts h ++ [(t, b)]), Returned tt).

Definition initial_hub : Hub := mkHub initial [].

Module SocketEvents.
Import AnalyticsService SocketService.

Definition handleProjectView (env : Env) (now : Z) (socket : Socket)
    (projectId slug : JsVal) : H unit :=
  (* Track project view *)
  lift (trackEvent env now
          (mkEvent "project_view" (sk_id socket) (sk_userId socket)
             [("projectId", projectId); ("slug", slug)] now));;
  (* Broadcast to admin dashboard *)
  broadcast (ToRoom "admin_dashboard")
    (project_view_update projectId slug now (sk_userId socket)).

Definition sendNotificationToUser (userId : string) (body : list (string * JsVal))
  : H unit :=
  broadcast (ToRoom ("user:" +:+ userId)) (notification body).

Definition broadcastToAdmins (event : string) (data : list (string * JsVal))
  : H unit :=
  broadcast (ToRoom "admins") (custom_event event data).

(** What a connected client, or the timer, can make the service do. *)
Inductive Inbound :=
| OnConnection (socket : Socket)
| OnAuthenticate (socket : Socket) (token : string)
| OnJoinRoom (socket : Socket) (room : string)
| OnLeaveRoom (socket : Socket) (room : string)
| OnAdminDashboardSubscribe (socket : Socket)
| OnProjectView (socket : Socket) (projectId slug : JsVal)
| OnRealTimeAnalytics (socket : Socket)
| OnUserActivity (socket : Socket) (data : list (string * JsVal))
| OnDisconnect (socket : Socket)
| OnError (socket : Socket)
| OnInterval.

(** [initialize]: the middleware runs before ['connection']; each event of
    a socket goes to its handler; the timer runs the broadcast.  An event
    carries the socket object as its handler receives it. *)
Definition initialize (env : Env) (now : Z) (e : Inbound) : H unit :=
  match e with
  | OnConnection socket =>
      lift (s ← authenticationMiddleware env socket; handleConnection env now s)
  | OnAuthenticate socket token =>
      lift (handleAuthentication env socket token;; mret tt)
  | OnJoinRoom socket room => lift (handleJoinRoom socket room)
  | OnLeaveRoom socket room => lift (handleLeaveRoom socket room)
  | OnAdminDashboardSubscribe socket => lift (handleAdminDashboardSubscribe now socket)
  | OnProjectView socket projectId slug => handleProjectView env now socket projectId slug
  | OnRealTimeAnalytics socket => lift (handleRealTimeAnalytics env now socket)
  | OnUserActivity socket data => lift (handleUserActivity env now socket data)
  | OnDisconnect socket => lift (disconnect env now socket)
  | OnError socket => lift (logger (LogError "Socket error:"))
  | OnInterval => lift (broadcastRealTimeData env now)
  end.

(** One event, with the environment and the time at which it is handled. *)
Record Step := mkStep {
  step_env : Env;
  step_now : Z;
  step_event : Inbound
}.

(** The hub after an event: what the handler did stays, also when it ended
    in an exception. *)
Definition step (h : Hub) (s : Step) : Hub :=
  (initialize (step_env s) (step_now s) (step_event s) h).1.

Definition run (steps : list Step) (h : Hub) : Hub := fold_left step steps h.

End SocketEvents.

(** * Vocabulary of the statements and scenarios *)

Import SocketService AnalyticsService.
Local Open Scope list_scope.

(** The event a client gets when a room join is refused. *)
Definition denied_reply (socket : Socket) : Target * Payload :=
  (ToSocket (sk_id socket), room_join_error "Access denied to room").

(** A handshake without a token. *)
Definition sample_handshake : Handshake := mkHandshake None None None "203.0.113.7".

(** Sockets of the scenarios: an administrator, a visitor, a visitor whose
    user id has a colon, and a connection that never authenticated. *)
Definition admin_socket : Socket :=
  mkSocket "c1" sample_handshake (Some "root") (Some "admin") (Some true).

Definition visitor_socket : Socket :=
  mkSocket "c1" sample_handshake (Some "u1") (Some "visitor") (Some true).

Definition colon_user_socket : Socket :=
  mkSocket "c1" sample_handshake (Some "a:b") (Some "visitor") (Some true).

(** The world with more log entries and nothing else changed. *)
Definition logged (l : list LogEntry) (w : World) : World :=
  mkWorld (connectedUsers w) (userSessions w) (rooms w) (outbox w) (log w ++ l).

(** The Redis commands issued by the analytics sink. *)
Definition sink_cmd (c : RedisCmd) : bool :=
  match c with
  | Lpush _ _ | Expire _ _ | Incr _ | Zincrby _ _ _ | Sadd _ _ => true
  | Setex _ _ _ | Del _ | Get _ | Scard _ => false
  end.

(** The environment in which the sink's commands behave as [sink] says and
    everything else as in [env]. *)
Definition with_sink (env : Env) (sink : RedisCmd -> option Reply) : Env :=
  mkEnv (verifyToken env)
    (fun c => if sink_cmd c then sink c else redis env c)
    (isoDate env) (parseInt env).

(** The record [handleConnection] stores for a socket. *)
Definition socketUser_of (now : Z) (socket : Socket) : SocketUser :=
  mkSocketUser (sk_id socket) (sk_id socket) (sk_userId socket) (sk_userRole socket)
    (default false (sk_isAuthenticated socket)) now now
    (mkMetadata
       (default "" (Js.or_else (header_user_agent (sk_handshake socket)) (Some "")))
       (address (sk_handshake socket))
       (Some (mkLocation "Unknown" "Unknown"))).

(** The Redis key under which a connection is mirrored. *)
Definition mirror_key (socket : Socket) : string := "socket:" +:+ sk_id socket.

(** The three tables of the registry. *)
Definition tables (w : World)
  : gmap string SocketUser * gmap string (gset string) * gmap string (gset string) :=
  (connectedUsers w, userSessions w, rooms w).

(** How the Redis mirror deletion of [handleDisconnection] ends. *)
Definition del_outcome (env : Env) (socket : Socket) : Completion unit :=
  match redis env (Del (mirror_key socket)) with
  | Some _ => Returned tt
  | None => Thrown
  end.

(** An environment in which every Redis command fails. *)
Definition redis_down : Env :=
  mkEnv (fun _ => Returned None) (fun _ => None) (fun _ => "1970-01-01") (fun _ => 0).

Definition anonymous_socket : Socket :=
  mkSocket "c1" sample_handshake None None None.

(** The number of entries of the table whose record satisfies [P]. *)
Definition count_where (P : SocketUser -> Prop) `{!forall u, Decision (P u)}
    (m : gmap string SocketUser) : nat :=
  size (filter (fun kv : string * SocketUser => P kv.2) m).

(** The snapshot of the connection table at one moment. *)
Definition snapshot_of (now : Z) (w : World) : DashboardData :=
  mkDashboard (size (connectedUsers w))
    (count_where (fun user => isAuthenticated user = true) (connectedUsers w))
    (count_where (fun user => role user = Some "admin") (connectedUsers w))
    now.

(** The socket after a successful [authenticate]. *)
Definition authenticated_as (u : User) (socket : Socket) : Socket :=
  mkSocket (sk_id socket) (sk_handshake socket)
    (Some (user_id u)) (Some (user_role u)) (Some true).

(** The stored record after a successful [authenticate]. *)
Definition identified_as (u : User) (su : SocketUser) : SocketUser :=
  mkSocketUser (id su) (socketId su) (Some (user_id u)) (Some (user_role u)) true
    (connectedAt su) (lastActivity su) (metadata su).

(** The invariant of the session index. *)
Definition session_index_invariant (w : World) : Prop :=
  forall uid : string,
    is_Some (userSessions w !! uid)
    <-> exists sid su, connectedUsers w !! sid = Some su
                       /\ isAuthenticated su = true
                       /\ userId su = Some uid.

(** The verifier of the scenarios: two tokens of two users. *)
Definition demo_verify (token : string) : Completion (option User) :=
  if String.eqb token "token-u1" then Returned (Some (mkUser "u1" "Ana" "visitor"))
  else if String.eqb token "token-u2" then Returned (Some (mkUser "u2" "Bia" "visitor"))
  else Returned None.

(** An environment in which every Redis command succeeds. *)
Definition demo_env : Env :=
  mkEnv demo_verify (fun _ => Some RNull) (fun _ => "2024-01-01") (fun _ => 0).

(** A connection registers without a token. *)
Definition register_anonymous : M unit :=
  handleConnection demo_env 0 anonymous_socket.

(** ... and then sends [authenticate] with the token of user "u1". *)
Definition register_then_authenticate : M Socket :=
  register_anonymous;;
  handleAuthentication demo_env anonymous_socket "token-u1".

(** A connection whose handshake carries the token of "u1". *)
Definition u1_socket : Socket :=
  mkSocket "c1" (mkHandshake (Some "token-u1") None None "203.0.113.7")
    None None None.

(** register (as "u1", through the handshake), authenticate again as "u2",
    join a room, record activity, disconnect. *)
Definition switch_user_session : M unit :=
  s0 ← authenticationMiddleware demo_env u1_socket;
  handleConnection demo_env 0 s0;;
  s1 ← handleAuthentication demo_env s0 "token-u2";
  handleJoinRoom s1 "public_lobby";;
  handleUserActivity demo_env 5 s1 [("page", JStr "/")];;
  disconnect demo_env 9 s1.

(** Scenario A: register, authenticate as visitor "u1", ask for "admins". *)
Definition scenario_A : M unit :=
  register_anonymous;;
  s ← handleAuthentication demo_env anonymous_socket "token-u1";
  handleJoinRoom s "admins".

(** Scenario D: register, never authenticate, record activity, disconnect. *)
Definition scenario_D : M unit :=
  register_anonymous;;
  handleUserActivity demo_env 3 anonymous_socket [("page", JStr "/")];;
  disconnect demo_env 7 anonymous_socket.

(** The sink's commands all fail, the other Redis commands succeed. *)
Definition sink_down : Env := with_sink demo_env (fun _ => None).

Import SocketEvents.

(** Does the socket pass the role test of the service? *)
Definition is_admin (socket : Socket) : bool :=
  Js.strict_eq (sk_userRole socket) (Some "admin").

(** The text of a string up to its first colon. *)
Fixpoint until_colon (s : string) : string :=
  match s with
  | EmptyString => EmptyString
  | String c s' => if Ascii.eqb c ":" then EmptyString else String c (until_colon s')
  end.

(** The connections an event sent to a room is delivered to. *)
Definition recipients (w : World) (room : string) : gset string :=
  default ∅ (rooms w !! room).

(** No user of the session index has an empty set of connections. *)
Definition no_empty_sessions (w : World) : Prop :=
  forall uid s, userSessions w !! uid = Some s -> s ≠ ∅.

(** Every record of the connection table is stored under its own id. *)
Definition keyed_by_id (w : World) : Prop :=
  forall sid su, connectedUsers w !! sid = Some su -> id su = sid /\ socketId su = sid.

(** A record with a new last-activity time. *)
Definition touched (now : Z) (su : SocketUser) : SocketUser :=
  mkSocketUser (id su) (socketId su) (userId su) (role su) (isAuthenticated su)
    (connectedAt su) now (metadata su).

(** The states the service can be in. *)
Definition reachable (h : Hub) : Prop :=
  exists steps, h = run steps initial_hub.

(** The event types for which [updateRealTimeMetrics] keeps a counter. *)
Definition counted_type (t : string) : bool :=
  String.eqb t "page_view" || String.eqb t "project_view"
  || String.eqb t "contact_form" || String.eqb t "download".

(** * Verification *)

(** Unfolds the monad and the effect primitives in the goal. *)
Ltac unfold_monad :=
  unfold mbind, M_bind, mret, M_ret, throw, try_catch, await, get_world,
    modify, when, emit, logger, redis_call, fire_and_forget,
    socket_join, socket_leave, socket_leaveAll in *.

(** ** Room authorisation *)

Section RoomAuthorisation.

Lemma split_no_sep (s : string) :
  Js.contains ":" s = false -> Js.split ":" s = [s].
Proof.
  induction s as [|c s IH]; simpl; [done|].
  intros [Hc Hs]%orb_false_elim.
  rewrite Hc, (IH Hs). done.
Qed.

Lemma split_user_room (uid : string) :
  Js.contains ":" uid = false ->
  Js.split ":" ("user:" +:+ uid) !! 1%nat = Some uid.
Proof.
  intros H. simpl. change ("" +:+ uid) with uid.
  by rewrite (split_no_sep _ H).
Qed.

Lemma startsWith_app (p s : string) : Js.startsWith (p +:+ s) p = true.
Proof.
  unfold Js.startsWith. induction p as [|c p IH]; simpl.
  - by destruct s.
  - destruct (ascii_dec c c); [apply IH | done].
Qed.

Lemma canJoinRoom_user (socket : Socket) (uid : string) :
  canJoinRoom socket ("user:" +:+ uid)
  = Js.strict_eq (sk_userId socket) (Js.split ":" ("user:" +:+ uid) !! 1%nat)
    || Js.strict_eq (sk_userRole socket) (Some "admin").
Proof.
  unfold canJoinRoom.
  replace (Js.startsWith ("user:" +:+ uid) "admin_") with false by done.
  by rewrite (startsWith_app "user:" uid).
Qed.

Lemma handleJoinRoom_allowed (socket : Socket) (room : string) (w : World) :
  canJoinRoom socket room = true ->
  handleJoinRoom socket room w
  = (mkWorld (connectedUsers w) (userSessions w)
       (<[room := {[sk_id socket]} ∪ default ∅ (rooms w !! room)]> (rooms w))
       (outbox w ++ [(ToSocket (sk_id socket), room_joined room)])
       (log w ++ [LogInfo ("Socket " +:+ sk_id socket +:+ " joined room: " +:+ room)]),
     Returned tt).
Proof. intros H. unfold handleJoinRoom. rewrite H. done. Qed.

Lemma handleJoinRoom_denied (socket : Socket) (room : string) (w : World) :
  canJoinRoom socket room = false ->
  handleJoinRoom socket room w
  = (mkWorld (connectedUsers w) (userSessions w) (rooms w)
       (outbox w ++ [(ToSocket (sk_id socket),
                      room_join_error "Access denied to room")])
       (log w),
     Returned tt).
Proof. intros H. unfold handleJoinRoom. rewrite H. done. Qed.

Lemma member_after_join (socket : Socket) (room : string) (w : World) :
  canJoinRoom socket room = true ->
  member (handleJoinRoom socket room w).1 (sk_id socket) room.
Proof.
  intros H. rewrite (handleJoinRoom_allowed _ _ _ H).
  unfold member. simpl. rewrite lookup_insert_eq. simpl. set_solver.
Qed.

End RoomAuthorisation.

Section JoinRoomClaims.

(** C2, as stated, fails: a connection whose role is "admin" asks to join
    "admins" and is denied; nothing is added to the room. *)
Lemma C2_admin_denied_admins :
  sk_userRole admin_socket = Some "admin"
  /\ canJoinRoom admin_socket "admins" = false
  /\ outbox (handleJoinRoom admin_socket "admins" initial).1
     = [denied_reply admin_socket]
  /\ ~ member (handleJoinRoom admin_socket "admins" initial).1 "c1" "admins".
Proof.
  repeat split; try reflexivity.
  unfold member. vm_compute. set_solver.
Qed.

(** C2, amended: [joinRoom] with the room name exactly "admins" is denied
    with [room_join_error] for every caller, whatever the role (the name
    has none of the prefixes [admin_], [user:], [public_]), and the three
    tables are left as they were; in particular a "visitor" is denied. *)
Theorem C2_admins_always_denied (socket : Socket) (w : World) :
  canJoinRoom socket "admins" = false
  /\ handleJoinRoom socket "admins" w
     = (mkWorld (connectedUsers w) (userSessions w) (rooms w)
          (outbox w ++ [denied_reply socket]) (log w),
        Returned tt)
  /\ outbox (handleJoinRoom visitor_socket "admins" w).1
     = outbox w ++ [denied_reply visitor_socket].
Proof.
  assert (Hdeny : forall s, canJoinRoom s "admins" = false) by done.
  split; [apply Hdeny|]. split.
  - by rewrite (handleJoinRoom_denied _ _ _ (Hdeny socket)).
  - by rewrite (handleJoinRoom_denied _ _ _ (Hdeny visitor_socket)).
Qed.

(** C5: [joinRoom(handle, "admin_dashboard")] succeeds exactly when the
    socket's role is "admin" at the call: then the connection is a member
    and gets [room_joined]; otherwise it gets [room_join_error] and the
    connection table, the session index, and the room table are unchanged. *)
Theorem C5_admin_dashboard (socket : Socket) (w : World) :
  let r := handleJoinRoom socket "admin_dashboard" w in
  r.2 = Returned tt
  /\ if bool_decide (sk_userRole socket = Some "admin")
     then member r.1 (sk_id socket) "admin_dashboard"
          /\ outbox r.1
             = outbox w ++ [(ToSocket (sk_id socket), room_joined "admin_dashboard")]
     else connectedUsers r.1 = connectedUsers w
          /\ userSessions r.1 = userSessions w
          /\ rooms r.1 = rooms w
          /\ outbox r.1 = outbox w ++ [denied_reply socket].
Proof.
  assert (Hcan : canJoinRoom socket "admin_dashboard"
                 = bool_decide (sk_userRole socket = Some "admin")) by done.
  simpl. case_bool_decide as Hrole.
  - split; [by rewrite (handleJoinRoom_allowed _ _ _ Hcan)|].
    split; [by apply member_after_join|].
    by rewrite (handleJoinRoom_allowed _ _ _ Hcan).
  - by rewrite (handleJoinRoom_denied _ _ _ Hcan).
Qed.

(** C8, as stated, fails for a user id that contains a colon: the caller's
    own id is "a:b", yet [joinRoom("user:a:b")] is denied, because the id
    compared is the text between the first two colons. *)
Lemma C8_colon_id_denied :
  ~ (canJoinRoom colon_user_socket ("user:" +:+ "a:b") = true
     <-> sk_userId colon_user_socket = Some "a:b"
         \/ sk_userRole colon_user_socket = Some "admin").
Proof.
  intros [_ H]. specialize (H (or_introl eq_refl)). vm_compute in H. done.
Qed.

(** C8, amended: for every connection and every user id without a colon,
    [joinRoom(handle, "user:" + id)] succeeds (membership and
    [room_joined]) if and only if the socket's own user id equals the id
    or its role is "admin"; otherwise it is denied with [room_join_error]
    and the room table is unchanged. *)
Theorem C8_user_room (socket : Socket) (uid : string) (w : World) :
  Js.contains ":" uid = false ->
  let r := handleJoinRoom socket ("user:" +:+ uid) w in
  (canJoinRoom socket ("user:" +:+ uid) = true
   <-> sk_userId socket = Some uid \/ sk_userRole socket = Some "admin")
  /\ if canJoinRoom socket ("user:" +:+ uid)
     then member r.1 (sk_id socket) ("user:" +:+ uid)
          /\ outbox r.1
             = outbox w ++ [(ToSocket (sk_id socket), room_joined ("user:" +:+ uid))]
     else rooms r.1 = rooms w
          /\ outbox r.1 = outbox w ++ [denied_reply socket].
Proof.
  intros Hcolon r. subst r. split.
  - rewrite canJoinRoom_user, (split_user_room _ Hcolon).
    unfold Js.strict_eq.
    rewrite orb_true_iff, !bool_decide_eq_true. done.
  - destruct (canJoinRoom socket ("user:" +:+ uid)) eqn:Hcan.
    + split; [by apply member_after_join|].
      by rewrite (handleJoinRoom_allowed _ _ _ Hcan).
    + by rewrite (handleJoinRoom_denied _ _ _ Hcan).
Qed.

(** C8 at a concrete input: the visitor "u1" joins "user:u1". *)
Lemma C8_user_room_witness :
  let r := handleJoinRoom visitor_socket ("user:" +:+ "u1") initial in
  Js.contains ":" "u1" = false
  /\ canJoinRoom visitor_socket ("user:" +:+ "u1") = true
  /\ member r.1 "c1" "user:u1".
Proof.
  pose proof (C8_user_room visitor_socket "u1" initial eq_refl) as [H1 H2].
  split; [reflexivity|]. split; [reflexivity|].
  change (canJoinRoom visitor_socket ("user:" +:+ "u1")) with true in H2.
  exact (proj1 H2).
Defined.

(** Scenario A ends with [room_join_error]. *)
Example scenario_A_denied :
  outbox (scenario_A initial).1
  = [(ToSocket "c1", connection_established "c1" 0 1);
     (ToSocket "c1", authentication_success "u1" "Ana" "visitor");
     (ToSocket "c1", room_join_error "Access denied to room")].
Proof. vm_compute. reflexivity. Qed.

End JoinRoomClaims.

(** ** The analytics sink never fails its caller *)

Section AnalyticsSink.

Lemma logged_nil (w : World) : logged [] w = w.
Proof. destruct w. unfold logged. simpl. by rewrite app_nil_r. Qed.

Lemma redis_call_run (env : Env) (c : RedisCmd) (w : World) :
  redis_call env c w
  = (w, match redis env c with Some r => Returned r | None => Thrown end).
Proof. done. Qed.

(** [updateRealTimeMetrics] only talks to Redis: it leaves the world as it
    is, whether it returns or throws. *)
Lemma updateRealTimeMetrics_world (env : Env) (now : Z) (event : AnalyticsEvent)
    (w : World) :
  (updateRealTimeMetrics env now event w).1 = w.
Proof.
  unfold updateRealTimeMetrics. unfold_monad.
  repeat (case_match; simplify_eq/=; try done).
Qed.

(** [trackEvent] catches every failure of its Redis commands: it always
    returns, and the only trace of a failure is one error in the log. *)
Lemma trackEvent_swallows (env : Env) (now : Z) (event : AnalyticsEvent) (w : World) :
  exists l, trackEvent env now event w = (logged l w, Returned tt).
Proof.
  unfold trackEvent. unfold_monad.
  pose proof (updateRealTimeMetrics_world env now event w) as Hw.
  destruct (redis env (Lpush _ _)); simpl;
    [destruct (redis env (Expire _ _)); simpl|];
    [destruct (updateRealTimeMetrics env now event w) as [w' [[]|]] eqn:Hu;
     simpl in Hw; subst w'|..];
    first [ by exists []; rewrite logged_nil
          | by exists [LogError "Failed to track analytics event:"] ].
Qed.

End AnalyticsSink.

(** Replaces a call of the sink in the goal by its outcome. *)
Ltac step_sink :=
  match goal with
  | |- context [trackEvent ?e ?n ?ev ?w] =>
      let l := fresh "l" in
      destruct (trackEvent_swallows e n ev w) as [l ->]
  end.

(** ** What the three handlers do, for any environment *)

Section HandlerRuns.

(** [handleConnection]: the record is stored before any Redis command is
    sent; the handler then ends as the Redis mirror write ends, and sends
    its acknowledgment when that write went through. *)
Lemma handleConnection_run (env : Env) (now : Z) (socket : Socket) (w : World) :
  let r := handleConnection env now socket w in
  let table := <[sk_id socket := socketUser_of now socket]> (connectedUsers w) in
  connectedUsers r.1 = table
  /\ r.2 = match redis env (Setex (mirror_key socket) 3600 (socketUser_of now socket))
           with Some _ => Returned tt | None => Thrown end
  /\ outbox r.1
     = outbox w ++
       match redis env (Setex (mirror_key socket) 3600 (socketUser_of now socket)) with
       | Some _ => [(ToSocket (sk_id socket),
                     connection_established (sk_id socket) now (size table))]
       | None => []
       end.
Proof.
  simpl. unfold handleConnection, getLocationFromIP, mirror_key, socketUser_of.
  unfold_monad. simpl.
  destruct (sk_userId socket) as [[|c u]|]; simpl;
    try destruct (Js.strict_eq _ _); simpl;
    destruct (redis env (Setex _ _ _)); simpl;
    try (by rewrite app_nil_r);
    repeat step_sink; done.
Qed.

(** [handleDisconnection]: the record is removed (when there is one), and
    the handler ends as the Redis mirror deletion ends. *)
Lemma handleDisconnection_run (env : Env) (now : Z) (socket : Socket) (w : World) :
  let r := handleDisconnection env now socket w in
  connectedUsers r.1 = delete (sk_id socket) (connectedUsers w)
  /\ r.2 = del_outcome env socket
  /\ outbox r.1 = outbox w.
Proof.
  simpl. unfold handleDisconnection, del_outcome, mirror_key. unfold_monad. simpl.
  destruct (connectedUsers w !! sk_id socket) as [su|] eqn:Hsu; simpl.
  - destruct (userId su) as [[|c u]|]; simpl;
      try (destruct (userSessions w !! String c u); simpl;
           try case_bool_decide; simpl);
      repeat step_sink; simpl;
      destruct (redis env (Del _)); done.
  - rewrite (delete_id _ _ Hsu). destruct (redis env (Del _)); done.
Qed.


(** [handleDisconnection] itself does not touch the room table. *)
Lemma handleDisconnection_rooms (env : Env) (now : Z) (socket : Socket) (w : World) :
  rooms (handleDisconnection env now socket w).1 = rooms w.
Proof.
  unfold handleDisconnection. unfold_monad. simpl.
  destruct (connectedUsers w !! sk_id socket) as [su|]; simpl.
  - destruct (userId su) as [[|c u]|]; simpl;
      try (destruct (userSessions w !! String c u); simpl;
           try case_bool_decide; simpl);
      repeat step_sink; simpl;
      destruct (redis env (Del _)); done.
  - destruct (redis env (Del _)); done.
Qed.

(** After the ['disconnect'] event the handle is in no room and not in the
    connection table, whatever Redis and the sink do. *)
Lemma disconnect_clears_table_and_rooms (env : Env) (now : Z) (socket : Socket)
    (w : World) :
  let r := disconnect env now socket w in
  connectedUsers r.1 !! sk_id socket = None
  /\ forall room, ~ member r.1 (sk_id socket) room.
Proof.
  simpl.
  set (w1 := set_rooms (fun r => filter (fun kv => kv.2 ≠ ∅)
                 ((fun s : gset string => s ∖ {[sk_id socket]}) <$> r)) w).
  change (disconnect env now socket w) with (handleDisconnection env now socket w1).
  destruct (handleDisconnection_run env now socket w1) as (Hcu & _).
  pose proof (handleDisconnection_rooms env now socket w1) as Hrooms.
  split.
  - rewrite Hcu. apply lookup_delete_eq.
  - intros room. unfold member. rewrite Hrooms. subst w1. simpl.
    destruct (filter _ _ !! room) as [s|] eqn:Hs; simpl; [|apply not_elem_of_empty].
    apply map_lookup_filter_Some in Hs as [Hs _].
    rewrite lookup_fmap in Hs.
    destruct (rooms w !! room) as [s0|]; simpl in Hs; [|discriminate Hs].
    assert (s = s0 ∖ {[sk_id socket]}) as -> by congruence.
    intros [_ Hn]%elem_of_difference. apply Hn. by apply elem_of_singleton.
Qed.

End HandlerRuns.

(** ** Registration, activity, disconnection and the sink *)

Section SinkFailures.





(** With the sink down, a registration still returns, sends its
    acknowledgment, and logs the sink's failure. *)
Example register_with_sink_down :
  let r := handleConnection sink_down 0 anonymous_socket initial in
  r.2 = Returned tt
  /\ outbox r.1 = [(ToSocket "c1", connection_established "c1" 0 1)]
  /\ log r.1 = [LogError "Failed to track analytics event:";
                LogInfo "Socket connected: c1"].
Proof. repeat split; vm_compute; reflexivity. Qed.

(** With the sink down, a disconnection still removes the record. *)
Example unregister_with_sink_down :
  let w := (handleConnection sink_down 0 anonymous_socket initial).1 in
  let r := handleDisconnection sink_down 4 anonymous_socket w in
  r.2 = Returned tt /\ connectedUsers r.1 = ∅.
Proof. split; vm_compute; reflexivity. Qed.

End SinkFailures.

(** ** Registration *)

Section Registration.


End Registration.

(** ** Handles that are not in the connection table *)

Section MissingHandle.

(** C9, as stated, fails: unregister on a handle that is not in the table
    is rejected when the Redis mirror deletion fails. *)
Lemma C9_unregister_rejected_when_redis_fails :
  connectedUsers initial !! sk_id anonymous_socket = None
  /\ (handleDisconnection redis_down 0 anonymous_socket initial).2 = Thrown.
Proof. split; reflexivity. Qed.

(** C9, amended: recordActivity always returns normally, and unregister
    ends exactly as its Redis mirror deletion does (it is rejected only
    when that deletion fails).  On a handle that is not in the connection
    table both leave the connection table, the session index and the room
    table unchanged and send nothing.  On a registered connection that
    never authenticated, unregister removes the record and leaves the
    session index as it was. *)
Theorem C9_missing_handle (env : Env) (now : Z) (socket : Socket)
    (data : list (string * JsVal)) (w : World) :
  let ra := handleUserActivity env now socket data w in
  let rd := handleDisconnection env now socket w in
  ra.2 = Returned tt
  /\ rd.2 = del_outcome env socket
  /\ match connectedUsers w !! sk_id socket with
     | None =>
         tables ra.1 = tables w /\ outbox ra.1 = outbox w
         /\ tables rd.1 = tables w /\ outbox rd.1 = outbox w
     | Some socketUser =>
         connectedUsers rd.1 = delete (sk_id socket) (connectedUsers w)
         /\ match userId socketUser with
            | None => userSessions rd.1 = userSessions w
            | Some _ => True
            end
     end.
Proof.
  simpl. unfold del_outcome, mirror_key, tables.
  unfold handleUserActivity, handleDisconnection. unfold_monad. simpl.
  destruct (connectedUsers w !! sk_id socket) as [su|]; simpl.
  - destruct (userId su) as [[|c u]|]; simpl;
      try (destruct (userSessions w !! String c u); simpl;
           try case_bool_decide; simpl);
      repeat step_sink; simpl;
      destruct (redis env (Del _)); done.
  - step_sink. destruct w. simpl. destruct (redis env (Del _)); done.
Qed.

(** Scenario D: with Redis up, all three steps return and nothing is left. *)
Example scenario_D_succeeds :
  (scenario_D initial).2 = Returned tt
  /\ tables (scenario_D initial).1 = (∅, ∅, ∅).
Proof. split; vm_compute; reflexivity. Qed.

End MissingHandle.

(** ** The periodic snapshot *)

Section Snapshot.

Section Count.
Context (P : SocketUser -> Prop) `{!forall u, Decision (P u)}.

(** [Array.from(m.values()).filter(P).length] is that number. *)
Lemma values_filter_length (m : gmap string SocketUser) :
  length (filter P (map_to_list m).*2) = count_where P m.
Proof.
  unfold count_where.
  induction m as [|i x m Hi IH] using map_ind.
  - by rewrite map_to_list_empty, map_filter_empty, map_size_empty.
  - rewrite map_to_list_insert, fmap_cons, filter_cons by done.
    rewrite map_filter_insert. cbn [snd].
    destruct (decide (P x)) as [Hx|Hx].
    + rewrite map_size_insert_None; [cbn [length]; by rewrite IH|].
      by rewrite map_lookup_filter, Hi.
    + rewrite IH. by rewrite delete_id.
Qed.
End Count.

Lemma getDashboardData_run (now : Z) (w : World) :
  getDashboardData now w = (w, Returned (snapshot_of now w)).
Proof.
  unfold getDashboardData, snapshot_of. unfold_monad.
  by rewrite !values_filter_length.
Qed.

Lemma getRealTimeMetrics_world (env : Env) (now : Z) (w : World) :
  (getRealTimeMetrics env now w).1 = w.
Proof.
  unfold getRealTimeMetrics. unfold_monad. simpl.
  repeat (destruct (redis env _); simpl; try done).
Qed.

(** C7, as stated, fails: in a tick whose analytics fetch fails, only the
    dashboard snapshot is sent; nothing goes to "admins" and no count goes
    to all connections. *)
Lemma C7_failed_fetch_skips_broadcasts :
  outbox (broadcastRealTimeData redis_down 0 initial).1
  = [(ToRoom "admin_dashboard", dashboard_update (mkDashboard 0 0 0 0))]
  /\ (forall n, (ToAll, active_users_count n)
                ∉ outbox (broadcastRealTimeData redis_down 0 initial).1)
  /\ (forall m, (ToRoom "admins", real_time_analytics m)
                ∉ outbox (broadcastRealTimeData redis_down 0 initial).1).
Proof.
  assert (H : outbox (broadcastRealTimeData redis_down 0 initial).1
              = [(ToRoom "admin_dashboard", dashboard_update (mkDashboard 0 0 0 0))])
    by (vm_compute; reflexivity).
  rewrite H. split; [done|].
  split; intros ? [Heq|Hin]%elem_of_cons; try discriminate Heq;
    by apply elem_of_nil in Hin.
Qed.

(** C7, amended: the timer period is 10 seconds, and every tick returns
    normally, leaves the tables as they are, and first sends to room
    "admin_dashboard" the snapshot of the connection table at that moment
    (total, authenticated, "admin"); when the analytics fetch succeeds it
    then sends the summary to room "admins" and the total connection count
    to all connections; when the fetch fails it sends nothing more in that
    tick. *)
Theorem C7_periodic_snapshot (env : Env) (now : Z) (w : World) :
  let r := broadcastRealTimeData env now w in
  broadcast_interval_ms = 10 * 1000
  /\ r.2 = Returned tt
  /\ tables r.1 = tables w
  /\ outbox r.1
     = outbox w ++
       (ToRoom "admin_dashboard", dashboard_update (snapshot_of now w)) ::
       match (getRealTimeMetrics env now w).2 with
       | Returned summary =>
           [(ToRoom "admins", real_time_analytics summary);
            (ToAll, active_users_count (size (connectedUsers w)))]
       | Thrown => []
       end
  /\ log r.1
     = log w ++
       match (getRealTimeMetrics env now w).2 with
       | Returned _ => []
       | Thrown => [LogError "Error broadcasting real-time data:"]
       end.
Proof.
  simpl. split; [done|].
  unfold broadcastRealTimeData, getRealTimeMetrics, tables. unfold_monad.
  rewrite getDashboardData_run. simpl.
  repeat (destruct (redis env _); simpl; try done).
  by rewrite <- !app_assoc, app_nil_r.
Qed.

End Snapshot.

(** ** Authentication and the by-user session index *)

Section Authentication.

(** [handleAuthentication] never writes the session index. *)
Lemma handleAuthentication_userSessions (env : Env) (socket : Socket)
    (token : string) (w : World) :
  userSessions (handleAuthentication env socket token w).1 = userSessions w.
Proof.
  unfold handleAuthentication. unfold_monad. simpl.
  destruct (verifyToken env token) as [[u|]|]; simpl; try done.
  destruct (connectedUsers w !! sk_id socket); simpl;
    case_bool_decide; done.
Qed.

(** A token the verifier accepts: the record and the socket are marked
    authenticated, and the connection is put in room "user:{id}", and in
    "admins" when the role is "admin". *)
Lemma authenticate_accepted (env : Env) (socket : Socket) (token : string)
    (u : User) (su : SocketUser) (w : World) :
  verifyToken env token = Returned (Some u) ->
  connectedUsers w !! sk_id socket = Some su ->
  let r := handleAuthentication env socket token w in
  r.2 = Returned (authenticated_as u socket)
  /\ connectedUsers r.1 = <[sk_id socket := identified_as u su]> (connectedUsers w)
  /\ member r.1 (sk_id socket) ("user:" +:+ user_id u)
  /\ (user_role u = "admin" -> member r.1 (sk_id socket) "admins").
Proof.
  intros Hv Hsu. simpl. unfold handleAuthentication, member. unfold_monad. simpl.
  rewrite Hv. simpl. rewrite Hsu. simpl.
  case_bool_decide as Hrole; simpl; (split; [done|]); (split; [done|]).
  - rewrite lookup_insert_eq. split; [|intros _; set_solver].
    destruct (decide ("admins" = "user:" +:+ user_id u)) as [<-|Hne].
    + rewrite lookup_insert_eq. set_solver.
    + rewrite lookup_insert_ne, lookup_insert_eq by done. set_solver.
  - rewrite lookup_insert_eq. split; [set_solver | done].
Qed.

(** A token the verifier rejects (it answers [null], or it throws): the
    socket, the three tables and so every room membership stay as they
    were, and the client gets [authentication_error]. *)
Lemma authenticate_rejected (env : Env) (socket : Socket) (token : string) (w : World) :
  (forall u, verifyToken env token <> Returned (Some u)) ->
  let r := handleAuthentication env socket token w in
  r.2 = Returned socket
  /\ connectedUsers r.1 = connectedUsers w
  /\ userSessions r.1 = userSessions w
  /\ rooms r.1 = rooms w
  /\ exists message,
       outbox r.1 = outbox w ++ [(ToSocket (sk_id socket), authentication_error message)].
Proof.
  intros Hv. simpl. unfold handleAuthentication. unfold_monad. simpl.
  destruct (verifyToken env token) as [[u|]|]; simpl.
  - by destruct (Hv u).
  - repeat split; eauto.
  - repeat split; eauto.
Qed.

Lemma session_index_invariant_initial : session_index_invariant initial.
Proof.
  intros uid. simpl. split.
  - intros [s Hs]. by rewrite lookup_empty in Hs.
  - intros (sid & su & Hsu & _). by rewrite lookup_empty in Hsu.
Qed.

(** C1 on the code: the invariant holds after the registration, and
    [authenticate] breaks it: the one registered connection is
    authenticated as "u1" and "u1" is missing from the index. *)
Theorem C1_authenticate_breaks_index :
  session_index_invariant (register_anonymous initial).1
  /\ ~ session_index_invariant (register_then_authenticate initial).1.
Proof.
  split.
  - intros uid. split.
    + intros [s Hs]. vm_compute in Hs. done.
    + intros (sid & su & Hsu & Hauth & _).
      assert (Hcu : connectedUsers (register_anonymous initial).1
                    = {["c1" := socketUser_of 0 anonymous_socket]})
        by (vm_compute; reflexivity).
      rewrite Hcu in Hsu. apply lookup_singleton_Some in Hsu as [_ <-].
      done.
  - intros Hinv. specialize (Hinv "u1").
    assert (Hnone : userSessions (register_then_authenticate initial).1 !! "u1" = None)
      by (vm_compute; reflexivity).
    rewrite Hnone in Hinv. apply (is_Some_None (A:=gset string)), Hinv.
    exists "c1", (identified_as (mkUser "u1" "Ana" "visitor")
                    (socketUser_of 0 anonymous_socket)).
    split; [vm_compute; reflexivity | done].
Qed.

(** C3 on the code: after [authenticate] with an accepted token on a
    registered connection, the connection is marked authenticated and is a
    member of "user:u1", and the session index is still empty. *)
Theorem C3_authenticate_skips_index :
  let r := register_then_authenticate initial in
  (exists s, r.2 = Returned s /\ sk_isAuthenticated s = Some true)
  /\ (exists su, connectedUsers r.1 !! "c1" = Some su
                 /\ isAuthenticated su = true /\ userId su = Some "u1")
  /\ member r.1 "c1" "user:u1"
  /\ userSessions r.1 !! "u1" = None
  /\ userSessions r.1 = ∅.
Proof.
  simpl. split; [eexists; split; [vm_compute; reflexivity | done]|].
  split; [eexists; split; [vm_compute; reflexivity | done]|].
  split; [|split; vm_compute; reflexivity].
  unfold member.
  assert (H : rooms (register_then_authenticate initial).1 !! "user:u1"
              = Some {["c1"]}) by (vm_compute; reflexivity).
  rewrite H. set_solver.
Qed.

(** C4 on the code: after that sequence the handle is gone from the
    connection table and from every room, no connection is left at all,
    and the handle is still in the session index under "u1". *)
Theorem C4_stale_session_entry :
  let r := switch_user_session initial in
  r.2 = Returned tt
  /\ connectedUsers r.1 = ∅
  /\ (forall room, ~ member r.1 "c1" room)
  /\ userSessions r.1 !! "u1" = Some {["c1"]}
  /\ "c1" ∈ default ∅ (userSessions r.1 !! "u1").
Proof.
  simpl.
  assert (Hr : rooms (switch_user_session initial).1 = ∅) by (vm_compute; reflexivity).
  assert (Hu : userSessions (switch_user_session initial).1 !! "u1" = Some {["c1"]})
    by (vm_compute; reflexivity).
  split; [vm_compute; reflexivity|]. split; [vm_compute; reflexivity|].
  split; [|split; [done|]].
  - intros room. unfold member. rewrite Hr, lookup_empty. apply not_elem_of_empty.
  - rewrite Hu. by apply elem_of_singleton.
Qed.

End Authentication.

(** * Further properties of the service *)

(** ** The room rule *)

Section RoomRule.

Lemma startsWith_inv (s p : string) :
  Js.startsWith s p = true -> exists tail, s = p +:+ tail.
Proof.
  unfold Js.startsWith. revert s.
  induction p as [|a p IH]; intros s H.
  - by exists s.
  - destruct s as [|b s]; simpl in H; [done|].
    destruct (ascii_dec a b) as [->|]; [|done].
    destruct (IH s H) as [tail ->]. by exists tail.
Qed.

Lemma split_head (s : string) :
  exists rest, Js.split ":" s = until_colon s :: rest.
Proof.
  induction s as [|c s [rest IH]]; simpl; [by exists []|].
  destruct (Ascii.eqb c ":"); [by eexists|].
  rewrite IH. by eexists.
Qed.

Lemma split_user_tail (tail : string) :
  Js.split ":" ("user:" +:+ tail) !! 1%nat = Some (until_colon tail).
Proof.
  simpl. change ("" +:+ tail) with tail.
  destruct (split_head tail) as [rest ->]. done.
Qed.

Lemma until_colon_app (uid rest : string) :
  Js.contains ":" uid = false -> until_colon (uid +:+ ":" +:+ rest) = uid.
Proof.
  induction uid as [|c uid IH]; simpl; [done|].
  intros [Hc Hu]%orb_false_elim. rewrite Hc. by rewrite (IH Hu).
Qed.

(** X1: the three tests of [canJoinRoom] can be read in any order: no room
    name has two of the prefixes "admin_", "user:", "public_", and the
    verdict is the disjunction of the three rules. *)
Theorem X1_room_rules_order_free (socket : Socket) (room : string) :
  Js.startsWith room "admin_" && Js.startsWith room "user:" = false
  /\ Js.startsWith room "admin_" && Js.startsWith room "public_" = false
  /\ Js.startsWith room "user:" && Js.startsWith room "public_" = false
  /\ canJoinRoom socket room
     = (Js.startsWith room "admin_" && is_admin socket)
       || (Js.startsWith room "user:"
           && (Js.strict_eq (sk_userId socket) (Js.split ":" room !! 1%nat)
               || is_admin socket))
       || Js.startsWith room "public_".
Proof.
  unfold canJoinRoom, is_admin.
  destruct room as [|c room]; [done|].
  unfold Js.startsWith. cbn [String.prefix].
  destruct (ascii_dec "a" c) as [Ha|Ha];
    destruct (ascii_dec "u" c) as [Hu|Hu];
    destruct (ascii_dec "p" c) as [Hp|Hp];
    try congruence;
    repeat (destruct (String.prefix _ room)); simpl;
    rewrite ?orb_false_r, ?andb_false_r; done.
Qed.

(** X2: for a room "user:..." the id that is compared with the caller's is
    the text between the first colon and the next one (or the end): the
    join is allowed exactly when the caller's user id is that text or the
    caller is an administrator. *)
Theorem X2_user_room_segment (socket : Socket) (tail : string) :
  canJoinRoom socket ("user:" +:+ tail)
  = Js.strict_eq (sk_userId socket) (Some (until_colon tail)) || is_admin socket.
Proof.
  rewrite canJoinRoom_user. rewrite split_user_tail. reflexivity.
Qed.

(** X3: what follows a second colon plays no part: a caller whose user id
    has no colon is admitted to every room "user:" + id + ":" + anything. *)
Theorem X3_user_room_suffix_ignored (socket : Socket) (uid rest : string) :
  Js.contains ":" uid = false ->
  sk_userId socket = Some uid ->
  canJoinRoom socket ("user:" +:+ uid +:+ ":" +:+ rest) = true.
Proof.
  intros Hcolon Hid.
  rewrite canJoinRoom_user, split_user_tail, (until_colon_app _ _ Hcolon), Hid.
  unfold Js.strict_eq. by rewrite bool_decide_eq_true_2.
Qed.

(** X3 at an input: the visitor "u1" is admitted to "user:u1:x". *)
Lemma X3_user_room_suffix_ignored_witness :
  Js.contains ":" "u1" = false
  /\ sk_userId visitor_socket = Some "u1"
  /\ canJoinRoom visitor_socket "user:u1:x" = true.
Proof.
  split; [reflexivity|]. split; [reflexivity|].
  exact (X3_user_room_suffix_ignored visitor_socket "u1" "x" eq_refl eq_refl).
Defined.

(** X4: a connection without user id and without role can join exactly the
    rooms whose name starts with "public_". *)
Theorem X4_anonymous_only_public (sid : string) (hs : Handshake)
    (flag : option bool) (room : string) :
  canJoinRoom (mkSocket sid hs None None flag) room = Js.startsWith room "public_".
Proof.
  unfold canJoinRoom. simpl.
  destruct (Js.startsWith room "admin_") eqn:Ha.
  - apply startsWith_inv in Ha as [tail ->]. done.
  - destruct (Js.startsWith room "user:") eqn:Hu; [|by destruct (Js.startsWith room "public_")].
    apply startsWith_inv in Hu as [tail ->].
    rewrite split_user_tail. done.
Qed.

End RoomRule.

(** ** Joining and leaving rooms *)

Section JoinLeave.

Lemma recipients_join (sid room room' : string) (r : gmap string (gset string)) :
  default ∅ (<[room := {[sid]} ∪ default ∅ (r !! room)]> r !! room')
  = if decide (room' = room) then {[sid]} ∪ default ∅ (r !! room')
    else default ∅ (r !! room').
Proof.
  destruct (decide (room' = room)) as [->|Hne].
  - by rewrite lookup_insert_eq.
  - by rewrite lookup_insert_ne.
Qed.

Lemma recipients_leave (sid room room' : string) (r : gmap string (gset string)) :
  default ∅ (leave_in sid room r !! room')
  = if decide (room' = room) then default ∅ (r !! room') ∖ {[sid]}
    else default ∅ (r !! room').
Proof.
  unfold leave_in.
  destruct (decide (room' = room)) as [->|Hne].
  - destruct (r !! room) as [s|] eqn:Hs; simpl.
    + destruct (decide (s ∖ {[sid]} = ∅)) as [He|He].
      * rewrite lookup_delete_eq. simpl. by rewrite He.
      * by rewrite lookup_insert_eq.
    + rewrite Hs. simpl. by rewrite empty_difference_L.
  - destruct (r !! room) as [s|] eqn:Hs; [|done].
    destruct (decide (s ∖ {[sid]} = ∅)).
    + by rewrite lookup_delete_ne.
    + by rewrite lookup_insert_ne.
Qed.

Lemma join_again (sid room : string) (r : gmap string (gset string)) :
  sid ∈ default ∅ (r !! room) ->
  <[room := {[sid]} ∪ default ∅ (r !! room)]> r = r.
Proof.
  intros Hin. destruct (r !! room) as [s|] eqn:Hs; simpl in Hin.
  - apply insert_id. rewrite Hs. f_equal. symmetry.
    by apply subseteq_union_1_L, singleton_subseteq_l.
  - by apply not_elem_of_empty in Hin.
Qed.

Lemma handleLeaveRoom_run (socket : Socket) (room : string) (w : World) :
  handleLeaveRoom socket room w
  = (mkWorld (connectedUsers w) (userSessions w)
       (leave_in (sk_id socket) room (rooms w))
       (outbox w ++ [(ToSocket (sk_id socket), room_left room)]) (log w),
     Returned tt).
Proof. unfold handleLeaveRoom. unfold_monad. done. Qed.

(** X5: a join adds the caller to the named room when the rule allows it and
    changes the audience of no other room; the connection table and the
    session index stay as they are; and a second identical join changes no
    table any more. *)
Theorem X5_join_effect (socket : Socket) (room room' : string) (w : World) :
  let r := handleJoinRoom socket room w in
  connectedUsers r.1 = connectedUsers w
  /\ userSessions r.1 = userSessions w
  /\ recipients r.1 room'
     = (if canJoinRoom socket room && bool_decide (room' = room)
        then {[sk_id socket]} ∪ recipients w room'
        else recipients w room')
  /\ tables (handleJoinRoom socket room r.1).1 = tables r.1.
Proof.
  simpl. unfold recipients, tables.
  destruct (canJoinRoom socket room) eqn:Hcan.
  - rewrite !(handleJoinRoom_allowed _ _ _ Hcan). simpl.
    rewrite recipients_join. split; [done|]. split; [done|]. split.
    + by destruct (decide (room' = room)); [rewrite bool_decide_eq_true_2
                                          | rewrite bool_decide_eq_false_2].
    + f_equal. apply join_again. rewrite lookup_insert_eq. simpl.
      apply elem_of_union_l. by apply elem_of_singleton.
  - by rewrite !(handleJoinRoom_denied _ _ _ Hcan).
Qed.



End JoinLeave.

(** ** Dashboard subscription, analytics on request, the handshake *)

Section Requests.

(** X8: [admin_dashboard_subscribe] admits exactly the callers that
    [join_room "admin_dashboard"] admits and changes the tables as that
    join does; an administrator then gets [dashboard_data] with the
    snapshot of the table at that moment, anybody else gets
    [subscription_error]; the handler always returns. *)
Theorem X8_dashboard_subscribe (now : Z) (socket : Socket) (w : World) :
  let r := handleAdminDashboardSubscribe now socket w in
  r.2 = Returned tt
  /\ tables r.1 = tables (handleJoinRoom socket "admin_dashboard" w).1
  /\ outbox r.1
     = outbox w ++
       [(ToSocket (sk_id socket),
         if is_admin socket then dashboard_data (snapshot_of now w)
         else subscription_error "Admin access required")].
Proof.
  cbv zeta. unfold handleAdminDashboardSubscribe, is_admin, tables.
  assert (Hcan : canJoinRoom socket "admin_dashboard"
                 = Js.strict_eq (sk_userRole socket) (Some "admin")) by done.
  destruct (Js.strict_eq (sk_userRole socket) (Some "admin")) eqn:Hrole; cbn [negb].
  - rewrite (handleJoinRoom_allowed _ _ _ Hcan). unfold_monad. unfold modify. cbv beta iota.
    rewrite getDashboardData_run. simpl. split; [done|]. split; [done|].
    unfold snapshot_of. done.
  - rewrite (handleJoinRoom_denied _ _ _ Hcan). unfold_monad. done.
Qed.

(** X9: [real_time_analytics] on request is silent for a caller that is not
    an administrator (nothing sent, nothing logged, nothing changed).  For
    an administrator it sends the metrics when the fetch succeeds; when the
    fetch fails nothing is sent or logged and the handler ends in the
    exception.  It never changes a table. *)
Theorem X9_analytics_on_request (env : Env) (now : Z) (socket : Socket) (w : World) :
  let r := handleRealTimeAnalytics env now socket w in
  tables r.1 = tables w
  /\ log r.1 = log w
  /\ if is_admin socket
     then match (getRealTimeMetrics env now w).2 with
          | Returned summary =>
              r.2 = Returned tt
              /\ outbox r.1
                 = outbox w ++ [(ToSocket (sk_id socket), real_time_analytics summary)]
          | Thrown => r.2 = Thrown /\ outbox r.1 = outbox w
          end
     else r = (w, Returned tt).
Proof.
  cbv zeta. unfold handleRealTimeAnalytics, is_admin, tables.
  destruct (Js.strict_eq (sk_userRole socket) (Some "admin")); simpl; [|done].
  unfold getRealTimeMetrics. unfold_monad. simpl.
  repeat (destruct (redis env _); simpl; try done).
Qed.

(** X10: the handshake middleware never refuses a connection and never
    touches the registry: it always returns a socket with the same id, and
    that socket is authenticated when, and only when, the verifier accepted
    the token taken from [auth.token] or, when that is missing or empty,
    from the [authorization] header; a verifier that throws is logged and
    the socket stays anonymous. *)
Theorem X10_middleware_admits (env : Env) (socket : Socket) (w : World) :
  let r := authenticationMiddleware env socket w in
  let token := Js.or_else (auth_token (sk_handshake socket))
                 (header_authorization (sk_handshake socket)) in
  tables r.1 = tables w
  /\ outbox r.1 = outbox w
  /\ match token with
     | Some (String c t) =>
         match verifyToken env (String c t) with
         | Returned (Some u) => r = (w, Returned (authenticated_as u socket))
         | Returned None => r = (w, Returned socket)
         | Thrown =>
             r = (logged [LogError "Socket authentication error:"] w, Returned socket)
         end
     | _ => r = (w, Returned socket)
     end.
Proof.
  cbv zeta. unfold authenticationMiddleware, tables. unfold_monad.
  destruct (Js.or_else _ _) as [[|c t]|]; simpl; try done.
  destruct (verifyToken env (String c t)) as [[u|]|]; simpl; done.
Qed.

End Requests.

(** ** Registration and the session index *)

Section SessionIndex.

Lemma track_session (sid uid : string) (us : gmap string (gset string)) :
  alter (fun s => {[sid]} ∪ s) uid
    (if decide (is_Some (us !! uid)) then us else <[uid := ∅]> us)
  = <[uid := {[sid]} ∪ default ∅ (us !! uid)]> us.
Proof.
  destruct (us !! uid) as [s|] eqn:Hs.
  - rewrite decide_True by eauto. apply map_eq. intros k.
    destruct (decide (k = uid)) as [->|Hne].
    + by rewrite lookup_alter_eq, lookup_insert_eq, Hs.
    + by rewrite lookup_alter_ne, lookup_insert_ne.
  - rewrite decide_False by apply is_Some_None.
    by rewrite alter_insert_eq.
Qed.

Lemma untrack_session (sid uid : string) (s : gset string)
    (us : gmap string (gset string)) :
  us !! uid = Some s ->
  (if bool_decide (size (default ∅ (alter (fun s => s ∖ {[sid]}) uid us !! uid)) = 0%nat)
   then delete uid (alter (fun s => s ∖ {[sid]}) uid us)
   else alter (fun s => s ∖ {[sid]}) uid us)
  = leave_in sid uid us.
Proof.
  intros Hs. unfold leave_in. rewrite Hs, lookup_alter_eq, Hs. simpl.
  destruct (decide (s ∖ {[sid]} = ∅)) as [He|He].
  - rewrite bool_decide_eq_true_2 by (by rewrite He, size_empty).
    apply delete_alter_eq.
  - rewrite bool_decide_eq_false_2.
    + apply map_eq. intros k. destruct (decide (k = uid)) as [->|Hne].
      * by rewrite lookup_alter_eq, lookup_insert_eq, Hs.
      * by rewrite lookup_alter_ne, lookup_insert_ne.
    + intros Hz. apply He. apply leibniz_equiv. by apply size_empty_iff.
Qed.

(** X11: registering a socket that the handshake identified (a non-empty
    user id) adds the connection to that user's set in the session index,
    keeping the connections already there and every other user's set, and
    puts it in the audience of "user:{id}", and of "admins" when its role
    is "admin"; registering a socket without user id, or with an empty one,
    changes neither the session index nor the rooms. *)
Theorem X11_register_indexes (env : Env) (now : Z) (socket : Socket) (w : World) :
  let r := handleConnection env now socket w in
  match sk_userId socket with
  | Some (String c u) =>
      userSessions r.1
      = <[String c u := {[sk_id socket]} ∪ default ∅ (userSessions w !! String c u)]>
          (userSessions w)
      /\ sk_id socket ∈ recipients r.1 ("user:" +:+ String c u)
      /\ (if is_admin socket then sk_id socket ∈ recipients r.1 "admins"
          else recipients r.1 "admins" = recipients w "admins")
  | _ => userSessions r.1 = userSessions w /\ rooms r.1 = rooms w
  end.
Proof.
  cbv zeta. unfold handleConnection, getLocationFromIP, recipients, is_admin.
  unfold_monad. simpl.
  destruct (sk_userId socket) as [[|c u]|]; simpl.
  - destruct (redis env (Setex _ _ _)); simpl; [repeat step_sink|]; done.
  - destruct (Js.strict_eq (sk_userRole socket) (Some "admin")); simpl;
      destruct (redis env (Setex _ _ _)); simpl; repeat step_sink; simpl;
      rewrite track_session; (split; [done|]).
    + rewrite lookup_insert_eq. split; [|simpl; set_unfold; tauto].
      rewrite lookup_insert_ne by done. rewrite lookup_insert_eq.
      simpl. set_unfold. tauto.
    + rewrite lookup_insert_eq. split; [|simpl; set_unfold; tauto].
      rewrite lookup_insert_ne by done. rewrite lookup_insert_eq.
      simpl. set_unfold. tauto.
    + rewrite lookup_insert_eq. split; [simpl; set_unfold; tauto|].
      by rewrite lookup_insert_ne.
    + rewrite lookup_insert_eq. split; [simpl; set_unfold; tauto|].
      by rewrite lookup_insert_ne.
  - destruct (redis env (Setex _ _ _)); simpl; [repeat step_sink|]; done.
Qed.

(** X12: unregistering a connection whose record names a user takes the
    handle out of that user's set, leaves every other user's set as it
    was, and never leaves an empty set behind; for a record without user
    id, and for a handle that is not in the connection table, the session
    index is not touched. *)
Theorem X12_unregister_index (env : Env) (now : Z) (socket : Socket) (w : World)
    (uid' : string) :
  let r := handleDisconnection env now socket w in
  match connectedUsers w !! sk_id socket with
  | Some su =>
      match userId su with
      | Some (String c u) =>
          default ∅ (userSessions r.1 !! uid')
          = (if decide (uid' = String c u)
             then default ∅ (userSessions w !! uid') ∖ {[sk_id socket]}
             else default ∅ (userSessions w !! uid'))
          /\ userSessions r.1 !! String c u ≠ Some ∅
      | _ => userSessions r.1 = userSessions w
      end
  | None => userSessions r.1 = userSessions w
  end.
Proof.
  cbv zeta. unfold handleDisconnection. unfold_monad. simpl.
  destruct (connectedUsers w !! sk_id socket) as [su|]; simpl.
  - destruct (userId su) as [[|c u]|]; simpl.
    + step_sink. simpl. by destruct (redis env (Del _)).
    + assert (Hgoal : forall us,
                us = leave_in (sk_id socket) (String c u) (userSessions w) ->
                default ∅ (us !! uid')
                = (if decide (uid' = String c u)
                   then default ∅ (userSessions w !! uid') ∖ {[sk_id socket]}
                   else default ∅ (userSessions w !! uid'))
                /\ us !! String c u ≠ Some ∅).
      { intros us ->. split; [apply recipients_leave|].
        unfold leave_in. destruct (userSessions w !! String c u) as [s|] eqn:Hs.
        - destruct (decide (s ∖ {[sk_id socket]} = ∅)).
          + by rewrite lookup_delete_eq.
          + rewrite lookup_insert_eq. congruence.
        - by rewrite Hs. }
      destruct (userSessions w !! String c u) as [s|] eqn:Hs; simpl.
      * pose proof (untrack_session (sk_id socket) _ _ _ Hs) as Hun.
        destruct (bool_decide (size _ = 0%nat)) in Hun |- *; simpl;
          step_sink; simpl; destruct (redis env (Del _)); simpl;
          apply Hgoal; exact Hun.
      * step_sink. simpl. destruct (redis env (Del _)); simpl; apply Hgoal;
          unfold leave_in; by rewrite Hs.
    + step_sink. simpl. by destruct (redis env (Del _)).
  - by destruct (redis env (Del _)).
Qed.

End SessionIndex.

(** ** Activity, authentication and the dashboard *)

Section RecordsAndCounts.

Lemma rejoin_one (sid room : string) (r : gmap string (gset string)) :
  <[room := {[sid]} ∪ default ∅
              (<[room := {[sid]} ∪ default ∅ (r !! room)]> r !! room)]>
    (<[room := {[sid]} ∪ default ∅ (r !! room)]> r)
  = <[room := {[sid]} ∪ default ∅ (r !! room)]> r.
Proof.
  apply join_again. rewrite lookup_insert_eq. simpl.
  apply elem_of_union_l. by apply elem_of_singleton.
Qed.

Lemma rejoin_same (sid room : string) (r : gmap string (gset string)) :
  <[room := {[sid]} ∪ default ∅
              (<[room := {[sid]} ∪ default ∅ (r !! room)]> r !! room)]> r
  = <[room := {[sid]} ∪ default ∅ (r !! room)]> r.
Proof.
  rewrite lookup_insert_eq. simpl. f_equal.
  apply subseteq_union_1_L, union_subseteq_l.
Qed.

Lemma rejoin_two (sid a b : string) (r : gmap string (gset string)) :
  a ≠ b ->
  let r1 := <[a := {[sid]} ∪ default ∅
                     (<[b := {[sid]} ∪ default ∅ (r !! b)]> r !! a)]>
              (<[b := {[sid]} ∪ default ∅ (r !! b)]> r) in
  <[a := {[sid]} ∪ default ∅
           (<[b := {[sid]} ∪ default ∅ (r1 !! b)]> r1 !! a)]>
    (<[b := {[sid]} ∪ default ∅ (r1 !! b)]> r1)
  = r1.
Proof.
  intros Hne r1.
  assert (Hb : <[b := {[sid]} ∪ default ∅ (r1 !! b)]> r1 = r1).
  { apply join_again. subst r1.
    rewrite lookup_insert_ne, lookup_insert_eq by done. simpl.
    apply elem_of_union_l. by apply elem_of_singleton. }
  rewrite Hb. apply join_again. subst r1. rewrite lookup_insert_eq. simpl.
  apply elem_of_union_l. by apply elem_of_singleton.
Qed.

(** X13: [user_activity] changes nothing but the last-activity time of the
    caller's own record: every other field of it and every other record
    stay, no record is made for a handle that has none, the session index
    and the rooms are untouched, nothing is sent, and the handler returns
    whatever the analytics sink does. *)
Theorem X13_activity_frame (env : Env) (now : Z) (socket : Socket)
    (data : list (string * JsVal)) (w : World) (sid : string) :
  let r := handleUserActivity env now socket data w in
  r.2 = Returned tt
  /\ connectedUsers r.1 !! sid
     = (if decide (sid = sk_id socket) then touched now <$> connectedUsers w !! sid
        else connectedUsers w !! sid)
  /\ userSessions r.1 = userSessions w
  /\ rooms r.1 = rooms w
  /\ outbox r.1 = outbox w.
Proof.
  cbv zeta. unfold handleUserActivity. unfold_monad. simpl.
  destruct (connectedUsers w !! sk_id socket) as [su|] eqn:Hsu; simpl;
    step_sink; simpl; (split; [done|]); (split; [|done]).
  - destruct (decide (sid = sk_id socket)) as [->|Hne].
    + by rewrite lookup_insert_eq, Hsu.
    + by rewrite lookup_insert_ne.
  - destruct (decide (sid = sk_id socket)) as [->|Hne]; [|done].
    by rewrite Hsu.
Qed.

(** X14: [authenticate] never ends in an exception, also when the verifier
    throws, and authenticating again with the same token, on the socket as
    the first call left it, changes no table: the record is replaced, the
    room memberships are the same. *)
Theorem X14_authenticate_again (env : Env) (socket : Socket) (token : string)
    (w : World) :
  let r := handleAuthentication env socket token w in
  exists socket',
    r.2 = Returned socket'
    /\ sk_id socket' = sk_id socket
    /\ tables (handleAuthentication env socket' token r.1).1 = tables r.1.
Proof.
  cbv zeta. unfold handleAuthentication, tables. unfold_monad. simpl.
  destruct (verifyToken env token) as [[u|]|] eqn:Hv; simpl.
  - assert (Hne : "admins" ≠ "user:" +:+ user_id u) by (cbn; discriminate).
    destruct (connectedUsers w !! sk_id socket) as [su|] eqn:Hsu; simpl;
      case_bool_decide as Hrole; simpl;
      eexists; (split; [reflexivity|]); (split; [reflexivity|]); simpl;
      rewrite ?lookup_insert_eq, ?Hsu; simpl;
      rewrite ?bool_decide_eq_true_2, ?bool_decide_eq_false_2 by done; simpl;
      rewrite ?insert_insert_eq; f_equal;
      first [ by apply rejoin_two | by apply rejoin_one | by apply rejoin_same ].
  - eexists. split; [reflexivity|]. split; [reflexivity|]. done.
  - eexists. split; [reflexivity|]. split; [reflexivity|]. done.
Qed.

(** X15: in every snapshot for the dashboard the total is the size of the
    connection table, and neither the number of authenticated connections
    nor the number of "admin" connections exceeds it; computing the
    snapshot changes nothing. *)
Theorem X15_snapshot_bounds (now : Z) (w : World) :
  exists d,
    getDashboardData now w = (w, Returned d)
    /\ activeConnections d = getPublicUserCount w
    /\ (authenticatedUsers d <= activeConnections d)%nat
    /\ (adminConnections d <= activeConnections d)%nat
    /\ dash_timestamp d = now.
Proof.
  unfold getDashboardData, getPublicUserCount. unfold_monad.
  eexists. split; [reflexivity|]. simpl. split; [done|].
  assert (Hlen : forall (P : SocketUser -> Prop) `{!forall x, Decision (P x)},
             (length (filter P (map_to_list (connectedUsers w)).*2)
              <= size (connectedUsers w))%nat).
  { intros P HP. etrans; [apply length_filter|].
    by rewrite length_fmap, length_map_to_list. }
  split; [apply Hlen|]. split; [apply Hlen|done].
Qed.

End RecordsAndCounts.

(** ** What the handlers do to the two maps of the service *)

Section TableEffects.

Lemma middleware_run (env : Env) (socket : Socket) (w : World) :
  exists l socket',
    authenticationMiddleware env socket w = (logged l w, Returned socket')
    /\ sk_id socket' = sk_id socket.
Proof.
  unfold authenticationMiddleware. unfold_monad.
  destruct (Js.or_else _ _) as [[|c t]|]; simpl;
    try (exists [], socket; by rewrite logged_nil).
  destruct (verifyToken env (String c t)) as [[u|]|]; simpl.
  - eexists [], _. by rewrite logged_nil.
  - exists [], socket. by rewrite logged_nil.
  - by exists [LogError "Socket authentication error:"], socket.
Qed.

Lemma handleConnection_userSessions (env : Env) (now : Z) (socket : Socket) (w : World) :
  userSessions (handleConnection env now socket w).1
  = match sk_userId socket with
    | Some (String c u) =>
        <[String c u := {[sk_id socket]} ∪ default ∅ (userSessions w !! String c u)]>
          (userSessions w)
    | _ => userSessions w
    end.
Proof.
  unfold handleConnection, getLocationFromIP. unfold_monad. simpl.
  destruct (sk_userId socket) as [[|c u]|]; simpl;
    try destruct (Js.strict_eq _ _); simpl;
    destruct (redis env (Setex _ _ _)); simpl;
    repeat step_sink; simpl; rewrite ?track_session; done.
Qed.

Lemma handleDisconnection_userSessions (env : Env) (now : Z) (socket : Socket)
    (w : World) :
  userSessions (handleDisconnection env now socket w).1
  = match connectedUsers w !! sk_id socket with
    | Some su =>
        match userId su with
        | Some (String c u) => leave_in (sk_id socket) (String c u) (userSessions w)
        | _ => userSessions w
        end
    | None => userSessions w
    end.
Proof.
  unfold handleDisconnection. unfold_monad. simpl.
  destruct (connectedUsers w !! sk_id socket) as [su|]; simpl;
    [|by destruct (redis env (Del _))].
  destruct (userId su) as [[|c u]|]; simpl;
    try (step_sink; simpl; by destruct (redis env (Del _))).
  destruct (userSessions w !! String c u) as [s|] eqn:Hs; simpl.
  - pose proof (untrack_session (sk_id socket) _ _ _ Hs) as Hun.
    destruct (bool_decide (size _ = 0%nat)) in Hun |- *; simpl;
      step_sink; simpl; by destruct (redis env (Del _)).
  - step_sink. simpl. unfold leave_in. rewrite Hs.
    by destruct (redis env (Del _)).
Qed.

Lemma handleAuthentication_connectedUsers (env : Env) (socket : Socket)
    (token : string) (w : World) :
  connectedUsers (handleAuthentication env socket token w).1
  = match verifyToken env token, connectedUsers w !! sk_id socket with
    | Returned (Some u), Some su =>
        <[sk_id socket := identified_as u su]> (connectedUsers w)
    | _, _ => connectedUsers w
    end.
Proof.
  unfold handleAuthentication. unfold_monad. simpl.
  destruct (verifyToken env token) as [[u|]|]; simpl; try done.
  destruct (connectedUsers w !! sk_id socket); simpl; case_bool_decide; done.
Qed.

Lemma handleUserActivity_tables (env : Env) (now : Z) (socket : Socket)
    (data : list (string * JsVal)) (w : World) :
  let r := handleUserActivity env now socket data w in
  connectedUsers r.1
  = match connectedUsers w !! sk_id socket with
    | Some su => <[sk_id socket := touched now su]> (connectedUsers w)
    | None => connectedUsers w
    end
  /\ userSessions r.1 = userSessions w.
Proof.
  cbv zeta. unfold handleUserActivity. unfold_monad. simpl.
  destruct (connectedUsers w !! sk_id socket); simpl; step_sink; done.
Qed.

Lemma subscribe_tables (now : Z) (socket : Socket) (w : World) :
  let r := handleAdminDashboardSubscribe now socket w in
  connectedUsers r.1 = connectedUsers w /\ userSessions r.1 = userSessions w.
Proof.
  cbv zeta. unfold handleAdminDashboardSubscribe. unfold_monad.
  by destruct (Js.strict_eq _ _).
Qed.

Lemma analytics_request_tables (env : Env) (now : Z) (socket : Socket) (w : World) :
  let r := handleRealTimeAnalytics env now socket w in
  connectedUsers r.1 = connectedUsers w /\ userSessions r.1 = userSessions w.
Proof.
  cbv zeta. unfold handleRealTimeAnalytics, getRealTimeMetrics. unfold_monad.
  destruct (Js.strict_eq _ _); simpl; [|done].
  repeat (destruct (redis env _); simpl; try done).
Qed.

Lemma broadcast_tables (env : Env) (now : Z) (w : World) :
  let r := broadcastRealTimeData env now w in
  connectedUsers r.1 = connectedUsers w /\ userSessions r.1 = userSessions w.
Proof.
  cbv zeta. unfold broadcastRealTimeData, getRealTimeMetrics, getDashboardData.
  unfold_monad. simpl.
  repeat (destruct (redis env _); simpl; try done).
Qed.

Lemma joinleave_tables (socket : Socket) (room : string) (w : World) :
  connectedUsers (handleJoinRoom socket room w).1 = connectedUsers w
  /\ userSessions (handleJoinRoom socket room w).1 = userSessions w
  /\ connectedUsers (handleLeaveRoom socket room w).1 = connectedUsers w
  /\ userSessions (handleLeaveRoom socket room w).1 = userSessions w.
Proof.
  rewrite handleLeaveRoom_run. unfold handleJoinRoom. unfold_monad.
  by destruct (canJoinRoom socket room).
Qed.

End TableEffects.

(** ** Invariants of the reachable states *)

Section Reachable.

Lemma connection_run (env : Env) (now : Z) (socket : Socket) (w : World) :
  exists l socket',
    sk_id socket' = sk_id socket
    /\ ((s ← authenticationMiddleware env socket; handleConnection env now s) w).1
       = (handleConnection env now socket' (logged l w)).1.
Proof.
  destruct (middleware_run env socket w) as (l & socket' & Hm & Hid).
  exists l, socket'. split; [done|].
  unfold mbind at 1. unfold M_bind at 1. by rewrite Hm.
Qed.

Lemma disconnect_run (env : Env) (now : Z) (socket : Socket) (w : World) :
  exists w1,
    connectedUsers w1 = connectedUsers w /\ userSessions w1 = userSessions w
    /\ disconnect env now socket w = handleDisconnection env now socket w1.
Proof. by eexists (set_rooms _ w). Qed.

(** What one event can do to the connection table and to the session
    index. *)
Lemma step_summary (h : Hub) (s : Step) :
  let cu := connectedUsers (registry h) in
  let us := userSessions (registry h) in
  let cu' := connectedUsers (registry (step h s)) in
  let us' := userSessions (registry (step h s)) in
  (cu' = cu
   \/ (exists sid su, cu' = <[sid := su]> cu /\ id su = sid /\ socketId su = sid)
   \/ (exists sid su0 su, cu !! sid = Some su0 /\ cu' = <[sid := su]> cu
                          /\ id su = id su0 /\ socketId su = socketId su0)
   \/ (exists sid, cu' = delete sid cu))
  /\ (us' = us
      \/ (exists sid c u,
            us' = <[String c u := {[sid]} ∪ default ∅ (us !! String c u)]> us)
      \/ (exists sid c u, us' = leave_in sid (String c u) us)).
Proof.
  destruct s as [env now e]. cbv zeta. unfold step.
  cbn [step_env step_now step_event].
  destruct e as [socket|socket token|socket room|socket room|socket
                |socket projectId slug|socket|socket data|socket|socket|];
    unfold initialize; unfold lift; cbn [fst registry].
  - destruct (connection_run env now socket (registry h)) as (l & s' & Hid & ->).
    destruct (handleConnection_run env now s' (logged l (registry h))) as (-> & _).
    rewrite handleConnection_userSessions. simpl. split.
    + right. left. by eexists _, _.
    + destruct (sk_userId s') as [[|c u]|]; eauto 10.
  - unfold mbind, M_bind.
    destruct (handleAuthentication env socket token (registry h)) as [w' [s'|]] eqn:Hr;
      simpl;
      pose proof (handleAuthentication_userSessions env socket token (registry h)) as Hus;
      pose proof (handleAuthentication_connectedUsers env socket token (registry h)) as Hcu;
      rewrite Hr in Hus, Hcu; simpl in Hus, Hcu; rewrite Hus, Hcu;
      (split; [|by left]);
      destruct (verifyToken env token) as [[u|]|]; eauto;
      destruct (connectedUsers (registry h) !! sk_id socket) as [su|] eqn:Hsu; eauto;
      right; right; left; by eexists _, su, _.
  - destruct (joinleave_tables socket room (registry h)) as (-> & -> & _). eauto.
  - destruct (joinleave_tables socket room (registry h)) as (_ & _ & -> & ->). eauto.
  - destruct (subscribe_tables now socket (registry h)) as (-> & ->). eauto.
  - unfold handleProjectView, mbind, H_bind, lift, broadcast.
    step_sink. simpl. eauto.
  - destruct (analytics_request_tables env now socket (registry h)) as (-> & ->). eauto.
  - destruct (handleUserActivity_tables env now socket data (registry h)) as (-> & ->).
    split; [|by left].
    destruct (connectedUsers (registry h) !! sk_id socket) as [su|] eqn:Hsu; eauto.
    right; right; left. by eexists _, su, _.
  - destruct (disconnect_run env now socket (registry h)) as (w1 & Hcu & Hus & ->).
    destruct (handleDisconnection_run env now socket w1) as (-> & _).
    rewrite handleDisconnection_userSessions, Hcu, Hus. split; [eauto 10|].
    destruct (connectedUsers (registry h) !! sk_id socket) as [su|]; eauto.
    destruct (userId su) as [[|c u]|]; eauto 10.
  - eauto.
  - destruct (broadcast_tables env now (registry h)) as (-> & ->). eauto.
Qed.

Lemma no_empty_after_leave (sid uid : string) (us : gmap string (gset string)) :
  (forall k s, us !! k = Some s -> s ≠ ∅) ->
  forall k s, leave_in sid uid us !! k = Some s -> s ≠ ∅.
Proof.
  intros Hinv k s. unfold leave_in.
  destruct (us !! uid) as [s0|] eqn:Hs0; [|apply Hinv].
  destruct (decide (s0 ∖ {[sid]} = ∅)) as [He|He].
  - intros [_ Hk]%lookup_delete_Some. by apply (Hinv k).
  - intros [[_ <-]|[_ Hk]]%lookup_insert_Some; [done|by apply (Hinv k)].
Qed.

(** X16: in every state the service can reach, whatever the clients send
    and whatever fails, no user of the session index has an empty set, the
    empty user id is never indexed, and every record of the connection
    table sits under its own id; so [getUserConnections] is 0 exactly for
    the users that are not in the index. *)
Theorem X16_reachable_invariants (steps : list Step) (uid : string) :
  let w := registry (run steps initial_hub) in
  no_empty_sessions w
  /\ userSessions w !! "" = None
  /\ keyed_by_id w
  /\ (getUserConnections w uid = 0%nat <-> userSessions w !! uid = None).
Proof.
  cbv zeta.
  assert (Hinv : forall h,
            no_empty_sessions (registry h) /\ userSessions (registry h) !! "" = None
            /\ keyed_by_id (registry h) ->
            no_empty_sessions (registry (run steps h))
            /\ userSessions (registry (run steps h)) !! "" = None
            /\ keyed_by_id (registry (run steps h))).
  { unfold run. induction steps as [|s steps IH]; intros h Hh; [done|].
    simpl. apply IH. destruct Hh as (Hne & Hemp & Hkey).
    destruct (step_summary h s) as [Hcu Hus]. cbv zeta in Hcu, Hus.
    split; [|split].
    - intros k x. destruct Hus as [->|[(sid & c & u & ->)|(sid & c & u & ->)]].
      + apply Hne.
      + intros [[_ <-]|[_ Hk]]%lookup_insert_Some; [|by apply (Hne k)].
        intros He. apply (not_elem_of_empty (C:=gset string) sid).
        rewrite <- He. apply elem_of_union_l. by apply elem_of_singleton.
      + by apply no_empty_after_leave.
    - destruct Hus as [->|[(sid & c & u & ->)|(sid & c & u & ->)]]; [done| |].
      + by rewrite lookup_insert_ne.
      + unfold leave_in. destruct (userSessions (registry h) !! String c u); [|done].
        destruct (decide _); [by rewrite lookup_delete_ne|by rewrite lookup_insert_ne].
    - intros k x.
      destruct Hcu as [->|[(sid & su & -> & Hid & Hsid)
                          |[(sid & su0 & su & Hsu0 & -> & Hid & Hsid)|(sid & ->)]]].
      + apply Hkey.
      + intros [[<- <-]|[_ Hk]]%lookup_insert_Some; [done|by apply Hkey].
      + intros [[<- <-]|[_ Hk]]%lookup_insert_Some; [|by apply Hkey].
        destruct (Hkey _ _ Hsu0). split; congruence.
      + intros [_ Hk]%lookup_delete_Some. by apply Hkey. }
  destruct (Hinv initial_hub) as (Hne & Hemp & Hkey).
  { split; [|split]; [intros k x Hk|done|intros k x Hk];
      simpl in Hk; by rewrite lookup_empty in Hk. }
  split; [done|]. split; [done|]. split; [done|].
  unfold getUserConnections.
  destruct (userSessions _ !! uid) as [x|] eqn:Hx; [|done].
  split; [|done]. intros Hz. destruct (Hne _ _ Hx).
  apply leibniz_equiv. by apply size_empty_iff.
Qed.

End Reachable.

(** ** Connections come and go only by connecting and disconnecting *)

Section Handles.

(** X17: the set of handles in the connection table, and with it the public
    user count, changes only on two events: a connection adds its handle, a
    disconnection removes its handle; authentication, room requests,
    activity, project views, analytics requests, errors and the periodic
    broadcast leave it as it is, however they end. *)
Theorem X17_handles_change_on_connect_disconnect (h : Hub) (s : Step) :
  dom (connectedUsers (registry (step h s)))
  = match step_event s with
    | OnConnection socket => {[sk_id socket]} ∪ dom (connectedUsers (registry h))
    | OnDisconnect socket => dom (connectedUsers (registry h)) ∖ {[sk_id socket]}
    | _ => dom (connectedUsers (registry h))
    end.
Proof.
  destruct s as [env now e]. unfold step.
  cbn [step_env step_now step_event].
  destruct e as [socket|socket token|socket room|socket room|socket
                |socket projectId slug|socket|socket data|socket|socket|];
    unfold initialize; unfold lift; cbn [fst registry].
  - destruct (connection_run env now socket (registry h)) as (l & s' & Hid & ->).
    destruct (handleConnection_run env now s' (logged l (registry h))) as (-> & _).
    rewrite dom_insert_L, Hid. done.
  - unfold mbind, M_bind.
    pose proof (handleAuthentication_connectedUsers env socket token (registry h)) as Hcu.
    destruct (handleAuthentication env socket token (registry h)) as [w' [s'|]];
      simpl in *; rewrite Hcu;
      destruct (verifyToken env token) as [[u|]|]; try done;
      destruct (connectedUsers (registry h) !! sk_id socket) as [su|] eqn:Hsu;
      try done; by apply dom_insert_lookup_L.
  - by destruct (joinleave_tables socket room (registry h)) as (-> & _).
  - by destruct (joinleave_tables socket room (registry h)) as (_ & _ & -> & _).
  - by destruct (subscribe_tables now socket (registry h)) as (-> & _).
  - unfold handleProjectView, mbind, H_bind, lift, broadcast.
    step_sink. done.
  - by destruct (analytics_request_tables env now socket (registry h)) as (-> & _).
  - destruct (handleUserActivity_tables env now socket data (registry h)) as (-> & _).
    destruct (connectedUsers (registry h) !! sk_id socket) as [su|] eqn:Hsu; [|done].
    by apply dom_insert_lookup_L.
  - destruct (disconnect_run env now socket (registry h)) as (w1 & Hcu & _ & ->).
    destruct (handleDisconnection_run env now socket w1) as (-> & _).
    by rewrite dom_delete_L, Hcu.
  - done.
  - by destruct (broadcast_tables env now (registry h)) as (-> & _).
Qed.

(** X18: registering a handle that is new to the connection table and to
    the session index and then unregistering it gives back the connection
    table and the session index as they were, whatever Redis and the sink
    do in between; while it is registered, a socket that the handshake
    identified counts as one more connection of its user. *)
Theorem X18_register_unregister (env env' : Env) (now now' : Z) (socket : Socket)
    (w : World) :
  connectedUsers w !! sk_id socket = None ->
  no_empty_sessions w ->
  (forall uid, sk_id socket ∉ default ∅ (userSessions w !! uid)) ->
  let w1 := (handleConnection env now socket w).1 in
  let w2 := (handleDisconnection env' now' socket w1).1 in
  connectedUsers w2 = connectedUsers w
  /\ userSessions w2 = userSessions w
  /\ match sk_userId socket with
     | Some (String c u) =>
         getUserConnections w1 (String c u) = S (getUserConnections w (String c u))
     | _ => userSessions w1 = userSessions w
     end.
Proof.
  intros Hfresh Hne Hnew. cbv zeta.
  destruct (handleConnection_run env now socket w) as (Hcu1 & _).
  pose proof (handleConnection_userSessions env now socket w) as Hus1.
  destruct (handleDisconnection_run env' now' socket (handleConnection env now socket w).1)
    as (Hcu2 & _).
  pose proof (handleDisconnection_userSessions env' now' socket
                (handleConnection env now socket w).1) as Hus2.
  cbv zeta in Hcu1. rewrite Hcu2, Hus2, Hcu1, lookup_insert_eq. clear Hcu2 Hus2.
  split; [by apply delete_insert_id|].
  cbv beta iota.
  change (userId (socketUser_of now socket)) with (sk_userId socket).
  unfold getUserConnections. rewrite Hus1. clear Hus1 Hcu1.
  destruct (sk_userId socket) as [[|c u]|]; [done| |done].
  set (uid := String c u). specialize (Hnew uid).
  assert (Hdiff : ({[sk_id socket]} ∪ default ∅ (userSessions w !! uid)) ∖ {[sk_id socket]}
                  = default ∅ (userSessions w !! uid)).
  { rewrite difference_union_distr_l_L, difference_diag_L, union_empty_l_L.
    apply difference_disjoint_L. by apply disjoint_singleton_r. }
  split.
  - unfold leave_in. rewrite lookup_insert_eq, Hdiff.
    destruct (userSessions w !! uid) as [s0|] eqn:Hs0; simpl.
    + rewrite decide_False by (by apply (Hne uid)).
      rewrite insert_insert_eq. by apply insert_id.
    + rewrite decide_True by done. by apply delete_insert_id.
  - rewrite lookup_insert_eq.
    rewrite size_union by (by apply disjoint_singleton_l).
    rewrite size_singleton. by destruct (userSessions w !! uid).
Qed.

(** X18 at an input: the socket of user "u1" on the empty registry. *)
Lemma X18_register_unregister_witness :
  let socket := authenticated_as (mkUser "u1" "Ana" "visitor") anonymous_socket in
  let w1 := (handleConnection demo_env 0 socket initial).1 in
  let w2 := (handleDisconnection redis_down 5 socket w1).1 in
  connectedUsers w2 = ∅ /\ userSessions w2 = ∅ /\ getUserConnections w1 "u1" = 1%nat.
Proof.
  assert (H1 : connectedUsers initial !! "c1" = None) by reflexivity.
  assert (H2 : no_empty_sessions initial).
  { intros uid s Hs. simpl in Hs. by rewrite lookup_empty in Hs. }
  assert (H3 : forall uid, "c1" ∉ default ∅ (userSessions initial !! uid)).
  { intros uid. simpl. rewrite lookup_empty. apply not_elem_of_empty. }
  exact (X18_register_unregister demo_env redis_down 0 5
           (authenticated_as (mkUser "u1" "Ana" "visitor") anonymous_socket)
           initial H1 H2 H3).
Defined.

End Handles.

(** ** Audiences *)

Section Audiences.

(** X19: a notification for a user goes to the room that authentication
    puts the user's connections in: after [authenticate] with a token the
    verifier accepts for user u, registered or not, the connection is in the
    audience of the room [sendNotificationToUser u] sends to, and for the
    role "admin" also in the audience of the room [broadcastToAdmins] sends
    to. *)
Theorem X19_notification_reaches_authenticated (env : Env) (socket : Socket)
    (token : string) (u : User) (w : World) (h : Hub)
    (body data : list (string * JsVal)) (event : string) :
  verifyToken env token = Returned (Some u) ->
  let w' := (handleAuthentication env socket token w).1 in
  exists room admins,
    (sendNotificationToUser (user_id u) body h).1
    = mkHub (registry h) (broadcasts h ++ [(ToRoom room, notification body)])
    /\ (broadcastToAdmins event data h).1
       = mkHub (registry h) (broadcasts h ++ [(ToRoom admins, custom_event event data)])
    /\ sk_id socket ∈ recipients w' room
    /\ (if bool_decide (user_role u = "admin")
        then sk_id socket ∈ recipients w' admins
        else recipients w' admins = recipients w admins).
Proof.
  intros Hv. cbv zeta. exists ("user:" +:+ user_id u), "admins".
  split; [done|]. split; [done|].
  assert (Hne : "admins" ≠ "user:" +:+ user_id u) by (cbn; discriminate).
  unfold handleAuthentication, recipients. unfold_monad. simpl. rewrite Hv. simpl.
  destruct (connectedUsers w !! sk_id socket); simpl;
    case_bool_decide; simpl;
    rewrite ?lookup_insert_eq, ?(lookup_insert_ne _ "admins") by done;
    rewrite ?lookup_insert_eq, ?(lookup_insert_ne _ _ "admins") by done; simpl;
    (split; [|try done]); apply elem_of_union_l; by apply elem_of_singleton.
Qed.

(** X19 at an input: the token of "u1" on the empty registry. *)
Lemma X19_notification_reaches_authenticated_witness :
  verifyToken demo_env "token-u1" = Returned (Some (mkUser "u1" "Ana" "visitor"))
  /\ exists room admins,
       (sendNotificationToUser "u1" [] initial_hub).1
       = mkHub initial [(ToRoom room, notification [])]
       /\ (broadcastToAdmins "ping" [] initial_hub).1
          = mkHub initial [(ToRoom admins, custom_event "ping" [])]
       /\ "c1" ∈ recipients (handleAuthentication demo_env anonymous_socket
                               "token-u1" initial).1 room
       /\ recipients (handleAuthentication demo_env anonymous_socket
                        "token-u1" initial).1 admins
          = recipients initial admins.
Proof.
  split; [reflexivity|].
  exact (X19_notification_reaches_authenticated demo_env anonymous_socket "token-u1"
           (mkUser "u1" "Ana" "visitor") initial initial_hub [] [] "ping" eq_refl).
Defined.

(** X20: the disconnect handler itself changes no room; with the rooms
    that socket.io clears before it runs, a disconnect takes exactly the
    closing connection out of every audience. *)
Theorem X20_disconnect_audiences (env : Env) (now : Z) (socket : Socket) (w : World)
    (room : string) :
  rooms (handleDisconnection env now socket w).1 = rooms w
  /\ recipients (disconnect env now socket w).1 room
     = recipients w room ∖ {[sk_id socket]}.
Proof.
  split; [apply handleDisconnection_rooms|].
  set (w1 := set_rooms (fun r => filter (fun kv => kv.2 ≠ ∅)
                 ((fun s : gset string => s ∖ {[sk_id socket]}) <$> r)) w).
  change (disconnect env now socket w) with (handleDisconnection env now socket w1).
  unfold recipients. rewrite handleDisconnection_rooms. subst w1. simpl.
  destruct (filter _ _ !! room) as [s|] eqn:Hs; simpl.
  - apply map_lookup_filter_Some in Hs as [Hs _]. rewrite lookup_fmap in Hs.
    destruct (rooms w !! room) as [s0|]; simpl in Hs; [|discriminate Hs].
    simpl. congruence.
  - apply map_lookup_filter_None in Hs as [Hs|Hs].
    + rewrite lookup_fmap in Hs.
      destruct (rooms w !! room) as [s0|]; simpl in Hs; [discriminate Hs|].
      simpl. by rewrite empty_difference_L.
    + destruct (rooms w !! room) as [s0|] eqn:Hs0; simpl.
      * destruct (decide (s0 ∖ {[sk_id socket]} = ∅)) as [He|He]; [done|].
        destruct (Hs (s0 ∖ {[sk_id socket]})); [|done].
        by rewrite lookup_fmap, Hs0.
      * by rewrite empty_difference_L.
Qed.


End Audiences.

(** ** Failures of Redis *)

Section RedisFailures.

(** X22: for an event of a type without counter (as the socket events
    "socket_connection", "socket_disconnection" and "user_activity") and
    with a session id, [trackEvent] depends on three Redis commands only:
    the push on the day's event list, its expiry, and the addition of the
    session to the day's unique visitors.  When the three succeed it leaves
    no trace; when one fails it logs one error; it returns in both cases. *)
Theorem X22_trackEvent_plain_event (env : Env) (now : Z) (event : AnalyticsEvent)
    (w : World) :
  counted_type (ev_type event) = false ->
  ev_sessionId event <> "" ->
  trackEvent env now event w
  = (match redis env (Lpush ("analytics:events:" +:+ isoDate env now) event),
           redis env (Expire ("analytics:events:" +:+ isoDate env now) (86400 * 30)),
           redis env (Sadd ("analytics:unique_visitors:" +:+ isoDate env now)
                        (ev_sessionId event))
     with
     | Some _, Some _, Some _ => w
     | _, _, _ => logged [LogError "Failed to track analytics event:"] w
     end,
     Returned tt).
Proof.
  unfold counted_type. intros Htype Hsid.
  apply orb_false_elim in Htype as [Htype Hd].
  apply orb_false_elim in Htype as [Htype Hc].
  apply orb_false_elim in Htype as [Hp Hv].
  unfold trackEvent, updateRealTimeMetrics. unfold_monad.
  rewrite Hp, Hv, Hc, Hd. simpl.
  destruct (ev_sessionId event) as [|c sid]; [done|]. simpl.
  destruct (redis env (Lpush _ _)); simpl; [|done].
  destruct (redis env (Expire _ _)); simpl; [|done].
  destruct (redis env (Sadd _ _)); simpl; [|done].
  by destruct w.
Qed.

(** X22 at an input: a "socket_connection" event with Redis up. *)
Lemma X22_trackEvent_plain_event_witness :
  let event := mkEvent "socket_connection" "c1" None [] 0 in
  counted_type (ev_type event) = false
  /\ ev_sessionId event <> ""
  /\ trackEvent demo_env 0 event initial = (initial, Returned tt).
Proof.
  split; [reflexivity|]. split; [discriminate|].
  exact (X22_trackEvent_plain_event demo_env 0
           (mkEvent "socket_connection" "c1" None [] 0) initial eq_refl
           ltac:(discriminate)).
Defined.

(** X23: what register, unregister and recordActivity do to the connection
    table, the session index and the rooms does not depend on the
    environment at all: no failure of Redis or of the sink, and no answer
    of the verifier, changes which updates of the tables are made. *)
Theorem X23_tables_whatever_fails (env env' : Env) (now : Z) (socket : Socket)
    (data : list (string * JsVal)) (w : World) :
  tables (handleConnection env now socket w).1
  = tables (handleConnection env' now socket w).1
  /\ tables (handleDisconnection env now socket w).1
     = tables (handleDisconnection env' now socket w).1
  /\ tables (handleUserActivity env now socket data w).1
     = tables (handleUserActivity env' now socket data w).1.
Proof.
  unfold tables. split; [|split].
  - unfold handleConnection, getLocationFromIP. unfold_monad. simpl.
    destruct (sk_userId socket) as [[|c u]|]; simpl;
      try destruct (Js.strict_eq _ _); simpl;
      destruct (redis env (Setex _ _ _)); simpl;
      destruct (redis env' (Setex _ _ _)); simpl;
      repeat step_sink; done.
  - rewrite !handleDisconnection_rooms, !handleDisconnection_userSessions.
    destruct (handleDisconnection_run env now socket w) as (-> & _).
    by destruct (handleDisconnection_run env' now socket w) as (-> & _).
  - destruct (handleUserActivity_tables env now socket data w) as (-> & ->).
    destruct (handleUserActivity_tables env' now socket data w) as (-> & ->).
    unfold handleUserActivity. unfold_monad. simpl.
    destruct (connectedUsers w !! sk_id socket); simpl; repeat step_sink; done.
Qed.

End RedisFailures.
